(** * A two-agent literature-review assistant: backend.py and frontend.py

    The program is a thin layer over four libraries: the [arxiv] client,
    AutoGen's agent chat, the OpenAI model client and [asyncio]/Streamlit.
    The functions of the program ([arxiv_search], [build_team],
    [run_litrev], the Streamlit script and its [_runner]) are embedded
    below as Rocq functions.  What the libraries and the remote services
    answer is not fixed by the program: it enters through the record
    [Services], and the observable effects of a run are collected in
    [World] (backend) and [Session] (frontend). *)

From Stdlib Require Import ZArith String Ascii List Bool Lia.
From stdpp Require Import base list strings gmap.
Import ListNotations.

Local Open Scope string_scope.
Local Open Scope Z_scope.

(** ** Python built-ins used by the program *)

Module Py.

(** Exceptions.  [except RuntimeError] in frontend.py separates
    [RuntimeError] from everything else; the other classes are kept by
    name. *)
Inductive exn : Type :=
| RuntimeError (msg : string)
| AssertionError
| OtherError (cls msg : string).

Definition is_RuntimeError (e : exn) : bool :=
  match e with RuntimeError _ => true | _ => false end.

(** Truth value of a [str]: only the empty string is falsy. *)
Definition truthy (s : string) : bool :=
  match s with EmptyString => false | String _ _ => true end.

Definition digit (d : Z) : ascii := ascii_of_nat (48 + Z.to_nat d).

Definition is_digit (c : ascii) : bool :=
  (48 <=? nat_of_ascii c)%nat && (nat_of_ascii c <=? 57)%nat.

(** [str(n)] for a non-negative [n], most significant digit first; the
    fuel bounds the number of digits. *)
Fixpoint decimal (fuel : nat) (n : Z) (acc : string) : string :=
  let acc' := String (digit (n mod 10)) acc in
  match fuel with
  | O => acc'
  | S fuel' => if n <? 10 then acc' else decimal fuel' (n / 10) acc'
  end.

Definition str_nonneg (n : Z) : string :=
  decimal (Z.to_nat (Z.log2 n)) n "".

(** [str(n)], as an f-string renders an [int]. *)
Definition str_int (n : Z) : string :=
  if n <? 0 then "-" +:+ str_nonneg (- n) else str_nonneg n.

(** Zero-padded fields of [strftime]. *)
Definition pad2 (n : Z) : string :=
  String (digit (n / 10 mod 10)) (String (digit (n mod 10)) "").

Definition pad4 (n : Z) : string :=
  String (digit (n / 1000 mod 10)) (String (digit (n / 100 mod 10)) (pad2 n)).

(** The date part of a [datetime.datetime]; [strftime("%Y-%m-%d")] reads
    nothing else. *)
Record datetime : Type := { year : Z; month : Z; day : Z }.

(** [d.strftime("%Y-%m-%d")].  [%m] and [%d] are always two digits.
    [%Y] is delegated to the C library: some pad the year to four digits
    and glibc prints it bare, so that year 5 comes out as "0005" or as
    "5".  [pads_year] says which library the interpreter runs on. *)
Definition strftime_Ymd (pads_year : bool) (d : datetime) : string :=
  (if pads_year then pad4 (year d) else str_nonneg (year d))
    +:+ "-" +:+ pad2 (month d) +:+ "-" +:+ pad2 (day d).

(** The shape YYYY-MM-DD: ten characters, digits around two hyphens. *)
Definition is_YYYY_MM_DD (s : string) : bool :=
  match list_ascii_of_string s with
  | [y1; y2; y3; y4; h1; m1; m2; h2; d1; d2] =>
      is_digit y1 && is_digit y2 && is_digit y3 && is_digit y4
      && Ascii.eqb h1 "-" && is_digit m1 && is_digit m2
      && Ascii.eqb h2 "-" && is_digit d1 && is_digit d2
  | _ => false
  end.

(** [s.split(":", 1)]: the text before the first colon and, when there is
    a colon, the text after it. *)
Fixpoint split_colon (s : string) : string * option string :=
  match s with
  | EmptyString => (EmptyString, None)
  | String c rest =>
      if Ascii.eqb c ":" then (EmptyString, Some rest)
      else let '(h, t) := split_colon rest in (String c h, t)
  end.

(** ASCII characters for which [str.isspace] holds. *)
Definition is_space (c : ascii) : bool :=
  let n := nat_of_ascii c in
  ((9 <=? n)%nat && (n <=? 13)%nat) || ((28 <=? n)%nat && (n <=? 32)%nat).

Fixpoint lstrip (s : string) : string :=
  match s with
  | EmptyString => EmptyString
  | String c rest => if is_space c then lstrip rest else s
  end.

Fixpoint rstrip (s : string) : string :=
  match s with
  | EmptyString => EmptyString
  | String c rest =>
      match rstrip rest with
      | EmptyString => if is_space c then EmptyString else String c EmptyString
      | r => String c r
      end
  end.

(** [s.strip()] on ASCII text.  [str.strip] also strips white space
    outside ASCII (U+00A0, U+3000 and the like), which is left alone here:
    statements about stripped text ask for ASCII content. *)
Definition strip (s : string) : string := rstrip (lstrip s).

End Py.

(** ** The arxiv package: data of a search and of a result *)

Module Arxiv.

Inductive SortCriterion : Type := Relevance | LastUpdatedDate | SubmittedDate.

Record Search : Type :=
  { query : string; max_results : Z; sort_by : SortCriterion }.

Record Author : Type := { name : string }.

Record Result : Type :=
  { title : string;
    authors : list Author;
    published : Py.datetime;
    summary : string;
    pdf_url : option string }.

End Arxiv.

(** ** Data of backend.py *)

(** The dict appended to [papers] by [arxiv_search], one field per key. *)
Record Paper : Type :=
  { title : string;
    authors : list string;
    published : string;
    summary : string;
    pdf_url : option string }.

(** What a run leaves behind outside the program: the process environment
    it may read, the [arxiv.Client] objects constructed, the searches sent
    out (with the client that sent each), the model inferences made and
    the agents that have taken a turn. *)
Record World : Type :=
  { environ : gmap string string;
    clients_made : nat;
    searches : list (nat * Arxiv.Search);
    inferences : list string;
    turn_log : list string }.

(** ** Effects: a state and exception monad *)

Definition IO (A : Type) : Type := World -> (Py.exn + A) * World.

Definition io_ret {A} (a : A) : IO A := fun w => (inr a, w).

Definition io_bind {A B} (f : A -> IO B) (m : IO A) : IO B :=
  fun w =>
    match m w with
    | (inl e, w') => (inl e, w')
    | (inr a, w') => f a w'
    end.

Definition io_raise {A} (e : Py.exn) : IO A := fun w => (inl e, w).

Definition io_lift {A} (r : Py.exn + A) : IO A := fun w => (r, w).

#[global] Instance IO_ret : MRet IO := @io_ret.
#[global] Instance IO_bind : MBind IO := @io_bind.

(** ** AutoGen: messages, model client, tools, agents and teams *)

Module Autogen.

(** A tool call requested by the model: the tool's name and its arguments
    as JSON text. *)
Record FunctionCall : Type :=
  { id : string; name : string; arguments : string }.

Record FunctionExecutionResult : Type :=
  { content : string; call_id : string; is_error : bool }.

(** What [run_stream] can yield as a message.  [TextMessage] and
    [ToolCallSummaryMessage] are chat messages, the other two are events
    inside one agent's turn. *)
Inductive Message : Type :=
| TextMessage (source content : string)
| ToolCallSummaryMessage (source content : string)
| ToolCallRequestEvent (source : string) (calls : list FunctionCall)
| ToolCallExecutionEvent (source : string) (results : list FunctionExecutionResult).

Inductive StopReason : Type :=
| MaxTurnsReached (max_turns : nat)
| ConditionMet.

(** The items of [run_stream]: messages, then one final [TaskResult]. *)
Inductive StreamItem : Type :=
| Item (msg : Message)
| TaskResult (messages : list Message) (stop_reason : StopReason).

Definition source_of (m : Message) : string :=
  match m with
  | TextMessage s _ | ToolCallSummaryMessage s _
  | ToolCallRequestEvent s _ | ToolCallExecutionEvent s _ => s
  end.

Definition is_chat_message (m : Message) : bool :=
  match m with
  | TextMessage _ _ | ToolCallSummaryMessage _ _ => true
  | _ => false
  end.

(** The configuration of an [OpenAIChatCompletionClient]. *)
Record ModelClient : Type := { model : string; api_key : option string }.

(** [OpenAIChatCompletionClient(model=.., api_key=..)]: the key passed by
    the caller is used; only without one is [OPENAI_API_KEY] read from
    the process environment. *)
Definition OpenAIChatCompletionClient
    (environ : gmap string string) (model : string)
    (api_key : option string) : ModelClient :=
  {| model := model;
     api_key := match api_key with
                | Some k => Some k
                | None => environ !! "OPENAI_API_KEY"
                end |}.

(** What one inference returns: text, or tool calls. *)
Inductive CreateResult : Type :=
| Content (text : string)
| Calls (calls : list FunctionCall).

End Autogen.

(** A tool wraps a function from JSON arguments to text. *)
Module Tool.
Record FunctionTool : Type :=
  { name : string; description : string; func : string -> IO string }.
End Tool.

Module Agent.
Record AssistantAgent : Type :=
  { name : string;
    description : string;
    system_message : string;
    tools : list Tool.FunctionTool;
    model_client : Autogen.ModelClient;
    reflect_on_tool_use : bool }.
End Agent.

(** A round-robin team.  Only teams with a turn bound are represented:
    backend.py always passes [max_turns]. *)
Module Team.
Record RoundRobinGroupChat : Type :=
  { participants : list Agent.AssistantAgent;
    termination_condition : option (list Autogen.Message -> bool);
    max_turns : nat }.
End Team.

(** ** Generators: yields on top of state and exceptions

    A generator run to its end: the items it yielded, in order, then how
    it ended.  Items yielded before an exception stay yielded. *)

Definition Gen (Y A : Type) : Type := World -> list Y * (Py.exn + A) * World.

Definition gen_ret {Y A} (a : A) : Gen Y A := fun w => ([], inr a, w).

Definition gen_bind {Y A B} (f : A -> Gen Y B) (m : Gen Y A) : Gen Y B :=
  fun w =>
    match m w with
    | (ys, inl e, w') => (ys, inl e, w')
    | (ys, inr a, w') =>
        let '(ys', r, w'') := f a w' in ((ys ++ ys')%list, r, w'')
    end.

Definition gen_raise {Y A} (e : Py.exn) : Gen Y A := fun w => ([], inl e, w).

Definition yield {Y} (y : Y) : Gen Y unit := fun w => ([y], inr tt, w).

Definition gen_lift {Y A} (m : IO A) : Gen Y A :=
  fun w => let '(r, w') := m w in ([], r, w').

(** Run a generator of [X] inside a generator of [Y]: every item is passed
    on through [f], and the items are also returned with the result. *)
Definition gen_map {X Y A} (f : X -> Y) (m : Gen X A) : Gen Y (list X * A) :=
  fun w =>
    match m w with
    | (xs, inl e, w') => (map f xs, inl e, w')
    | (xs, inr a, w') => (map f xs, inr (xs, a), w')
    end.

(** [async for x in m: body], for a body that only yields. *)
Definition async_for {X Y A} (m : Gen X A) (body : X -> list Y) : Gen Y A :=
  fun w => let '(xs, r, w') := m w in (flat_map body xs, r, w').

#[global] Instance Gen_ret {Y} : MRet (Gen Y) := @gen_ret Y.
#[global] Instance Gen_bind {Y} : MBind (Gen Y) := @gen_bind Y.

(** ** The services behind the libraries

    [arxiv_feed t s] is what [Client.results] yields for search [s] when
    [t] searches were sent before; [complete] and [complete_with_tools]
    are the model's answers without and with tools on offer (without
    tools, the answer is text), indexed by the number of inferences made
    before.  [bind_arguments] is the binding of a tool call's JSON
    arguments to the parameters [query] and [max_results] of
    [arxiv_search]; [repr_papers] is [str] of the list it returns. *)
Record Services : Type :=
  { libc_pads_year : bool;
    arxiv_feed : nat -> Arxiv.Search -> Py.exn + list Arxiv.Result;
    bind_arguments : string -> Py.exn + (string * option Z);
    repr_papers : list Paper -> string;
    str_exn : Py.exn -> string;
    complete :
      nat -> Autogen.ModelClient -> string -> list Autogen.Message
      -> Py.exn + string;
    complete_with_tools :
      nat -> Autogen.ModelClient -> string -> list string
      -> list Autogen.Message -> Py.exn + Autogen.CreateResult }.

(** ** backend.py: the search tool *)

Section Backend.

Context (sv : Services).

(** [arxiv.Client()]: a new client object, named by its serial number. *)
Definition Client_new : IO nat :=
  fun w =>
    (inr (clients_made w),
     {| environ := environ w;
        clients_made := S (clients_made w);
        searches := searches w;
        inferences := inferences w;
        turn_log := turn_log w |}).

(** [client.results(search)], consumed to the end: one outbound search,
    recorded whether or not it succeeds. *)
Definition Client_results (client : nat) (search : Arxiv.Search)
  : IO (list Arxiv.Result) :=
  fun w =>
    (arxiv_feed sv (length (searches w)) search,
     {| environ := environ w;
        clients_made := clients_made w;
        searches := (searches w ++ [(client, search)])%list;
        inferences := inferences w;
        turn_log := turn_log w |}).

(** The dict built for one result (backend.py, lines 50-56). *)
Definition paper_of (result : Arxiv.Result) : Paper :=
  {| title := Arxiv.title result;
     authors := map Arxiv.name (Arxiv.authors result);
     published := Py.strftime_Ymd (libc_pads_year sv) (Arxiv.published result);
     summary := Arxiv.summary result;
     pdf_url := Arxiv.pdf_url result |}.

Definition arxiv_search (query : string) (max_results : Z) : IO (list Paper) :=
  client ← Client_new;
  let search := {| Arxiv.query := query;
                   Arxiv.max_results := max_results;
                   Arxiv.sort_by := Arxiv.Relevance |} in
  results ← Client_results client search;
  mret (fold_left (fun papers result => (papers ++ [paper_of result])%list)
                  results []).

(** Default of the parameter [max_results]. *)
Definition arxiv_search_max_results_default : Z := 5.

(** The function behind [arxiv_tool], as the agent runs it: the JSON
    arguments are bound to [query] and [max_results] (5 when the call
    leaves it out) and the list returned is handed back as text. *)
Definition arxiv_search_run (arguments : string) : IO string :=
  '(query, max_results) ← io_lift (bind_arguments sv arguments);
  papers ← arxiv_search query
             (default arxiv_search_max_results_default max_results);
  mret (repr_papers sv papers).

Definition arxiv_tool : Tool.FunctionTool :=
  {| Tool.name := "arxiv_search";
     Tool.description := "
            Searches arXiv and returns up to *max_results* papers.

            Each paper includes: title, authors, published date, abstract, and PDF link.
       ";
     Tool.func := arxiv_search_run |}.

(** *** AssistantAgent: one turn *)

Definition log_inference (agent : string) : IO unit :=
  fun w =>
    (inr tt,
     {| environ := environ w;
        clients_made := clients_made w;
        searches := searches w;
        inferences := (inferences w ++ [agent])%list;
        turn_log := turn_log w |}).

Definition log_turn (agent : string) : IO unit :=
  fun w =>
    (inr tt,
     {| environ := environ w;
        clients_made := clients_made w;
        searches := searches w;
        inferences := inferences w;
        turn_log := (turn_log w ++ [agent])%list |}).

(** One inference with the agent's tools on offer; an agent without
    tools gets text. *)
Definition infer (a : Agent.AssistantAgent) (context : list Autogen.Message)
  : IO Autogen.CreateResult :=
  fun w =>
    let t := length (inferences w) in
    let answer :=
      match Agent.tools a with
      | [] =>
          match complete sv t (Agent.model_client a)
                  (Agent.system_message a) context with
          | inl e => inl e
          | inr text => inr (Autogen.Content text)
          end
      | _ :: _ =>
          complete_with_tools sv t (Agent.model_client a)
            (Agent.system_message a) (map Tool.name (Agent.tools a)) context
      end in
    (answer, snd (log_inference (Agent.name a) w)).

(** The inference after tool use ([reflect_on_tool_use]): no tools on
    offer, the answer is text. *)
Definition reflect (a : Agent.AssistantAgent) (context : list Autogen.Message)
  : IO string :=
  fun w =>
    (complete sv (length (inferences w)) (Agent.model_client a)
       (Agent.system_message a) context,
     snd (log_inference (Agent.name a) w)).

(** One tool call.  A tool the agent does not have, and an exception
    inside the tool, both come back as an error result; neither ends
    the turn. *)
Definition execute_tool_call (a : Agent.AssistantAgent)
    (call : Autogen.FunctionCall) : IO Autogen.FunctionExecutionResult :=
  match find (fun t => String.eqb (Tool.name t) (Autogen.name call))
             (Agent.tools a) with
  | None =>
      mret {| Autogen.content :=
                "Error: The tool '" +:+ Autogen.name call
                  +:+ "' is not available.";
              Autogen.call_id := Autogen.id call;
              Autogen.is_error := true |}
  | Some tool =>
      fun w =>
        match Tool.func tool (Autogen.arguments call) w with
        | (inl e, w') =>
            (inr {| Autogen.content := "Error: " +:+ str_exn sv e;
                    Autogen.call_id := Autogen.id call;
                    Autogen.is_error := true |}, w')
        | (inr text, w') =>
            (inr {| Autogen.content := text;
                    Autogen.call_id := Autogen.id call;
                    Autogen.is_error := false |}, w')
        end
  end.

Fixpoint execute_tool_calls (a : Agent.AssistantAgent)
    (calls : list Autogen.FunctionCall)
  : IO (list Autogen.FunctionExecutionResult) :=
  match calls with
  | [] => mret []
  | call :: rest =>
      r ← execute_tool_call a call;
      rs ← execute_tool_calls a rest;
      mret (r :: rs)
  end.

Definition tool_call_summary (results : list Autogen.FunctionExecutionResult)
  : string :=
  String.concat (String "010" "") (map Autogen.content results).

(** [on_messages_stream]: the agent infers once; text is its response.
    Tool calls are announced, run, and their results announced; then the
    agent either reflects on the results (a second inference, giving a
    [TextMessage]) or answers with their summary.  The two events are
    yielded, the response is returned. *)
Definition on_messages_stream (a : Agent.AssistantAgent)
    (context : list Autogen.Message) : Gen Autogen.Message Autogen.Message :=
  answer ← gen_lift (infer a context);
  match answer with
  | Autogen.Content text => mret (Autogen.TextMessage (Agent.name a) text)
  | Autogen.Calls calls =>
      let request := Autogen.ToolCallRequestEvent (Agent.name a) calls in
      yield request;;
      results ← gen_lift (execute_tool_calls a calls);
      let execution := Autogen.ToolCallExecutionEvent (Agent.name a) results in
      yield execution;;
      if Agent.reflect_on_tool_use a then
        text ← gen_lift (reflect a (context ++ [request; execution])%list);
        mret (Autogen.TextMessage (Agent.name a) text)
      else
        mret (Autogen.ToolCallSummaryMessage (Agent.name a)
                (tool_call_summary results))
  end.

(** *** RoundRobinGroupChat: the turn loop *)

(** The chat messages of a thread, as handed to the next speaker. *)
Definition chat_context (thread : list Autogen.Message)
  : list Autogen.Message :=
  List.filter Autogen.is_chat_message thread.

(** [budget] turns are left and [turn] have been taken.  The speaker is
    [participants[turn % len(participants)]]; it is handed the chat
    messages of the thread, its events and its response are yielded and
    join the thread.  The loop ends when the termination condition, if
    there is one, holds of the thread, or when the budget is used up.  An
    exception of the speaker ends the loop and is passed on as it is;
    releases of the library from 0.5.1 on pass it on as a [RuntimeError]
    instead, so statements about failing runs do not name the exception. *)
Fixpoint rounds (team : Team.RoundRobinGroupChat) (budget turn : nat)
    (thread : list Autogen.Message)
  : Gen Autogen.StreamItem (list Autogen.Message * Autogen.StopReason) :=
  match budget with
  | O => mret (thread, Autogen.MaxTurnsReached (Team.max_turns team))
  | S budget' =>
      let n := length (Team.participants team) in
      match Team.participants team !! (turn mod n)%nat with
      | None =>
          gen_raise (Py.OtherError "ValueError" "At least one participant is required.")
      | Some speaker =>
          gen_lift (log_turn (Agent.name speaker));;
          '(events, response) ←
             gen_map Autogen.Item
               (on_messages_stream speaker (chat_context thread));
          yield (Autogen.Item response);;
          let thread' := (thread ++ events ++ [response])%list in
          match Team.termination_condition team with
          | Some stop =>
              if stop thread' then mret (thread', Autogen.ConditionMet)
              else rounds team budget' (S turn) thread'
          | None => rounds team budget' (S turn) thread'
          end
      end
  end.

(** [team.run_stream(task=..)]: the task as a [TextMessage] from "user",
    the turns, and the final [TaskResult]. *)
Definition run_stream (team : Team.RoundRobinGroupChat) (task : string)
  : Gen Autogen.StreamItem unit :=
  let first := Autogen.TextMessage "user" task in
  yield (Autogen.Item first);;
  '(thread, reason) ← rounds team (Team.max_turns team) 0 [first];
  yield (Autogen.TaskResult thread reason).

(** *** backend.py: the team and the transcript *)

(** The two agents of [build_team], for the model client they share. *)
Definition search_agent (llm_client : Autogen.ModelClient)
  : Agent.AssistantAgent :=
  {| Agent.name := "search_agent";
     Agent.description := "Crafts arXiv queries and retrieves candidate papers.";
     Agent.system_message := "Given a user topic, think of the best arXiv query and call the provided tool. Always fetch five-times the papers requested so that you can down-select the most relevant ones. When the tool returns, choose exactly the number of papers requested and pass them as concise JSON to the summarizer.";
     Agent.tools := [arxiv_tool];
     Agent.model_client := llm_client;
     Agent.reflect_on_tool_use := true |}.

Definition summarizer_agent (llm_client : Autogen.ModelClient)
  : Agent.AssistantAgent :=
  {| Agent.name := "summarizer_agent";
     Agent.description := "Produces a short Markdown review from provided papers.";
     Agent.system_message := "
                You are a research expert. Given a JSON list of papers, write a short literature review in Markdown:

                1. Start with a 2-3 sentence intro about the topic.
                2. For each paper, add a bullet with:
                     - Title (as a Markdown link)
                     - Authors
                     - The problem it addresses
                     - Its main contribution
                3. End with one sentence that sums up the key takeaway.

            ";
     Agent.tools := [];
     Agent.model_client := llm_client;
     Agent.reflect_on_tool_use := false |}.

(** The team [build_team] returns once the model client is constructed;
    [Guarded.build_team], further down, adds the constructor's check of
    the model name. *)
Definition build_team (environ : gmap string string) (model : string)
  : Team.RoundRobinGroupChat :=
  let llm_client :=
    Autogen.OpenAIChatCompletionClient environ model (Some "your-key-here") in
  {| Team.participants := [search_agent llm_client; summarizer_agent llm_client];
     Team.termination_condition := None;
     Team.max_turns := 2 |}.

Definition build_team_model_default : string := "gpt-4o-mini".

Definition task_prompt (topic : string) (num_papers : Z) : string :=
  "Conduct a literature review on **" +:+ topic
    +:+ "** and return exactly " +:+ Py.str_int num_papers +:+ " papers.".

(** The body of the [async for] in [run_litrev]: what one item of the
    stream makes the generator yield. *)
Definition surface (msg : Autogen.StreamItem) : list string :=
  match msg with
  | Autogen.Item (Autogen.TextMessage source content) =>
      [source +:+ ": " +:+ content]
  | _ => []
  end.

Definition run_litrev (topic : string) (num_papers : Z) (model : string)
  : Gen string unit :=
  fun w =>
    let team := build_team (environ w) model in
    async_for (run_stream team (task_prompt topic num_papers)) surface w.

Definition run_litrev_num_papers_default : Z := 5.

End Backend.

(** ** frontend.py *)

(** The event loops of the script's thread: the loop running in it, the
    loop installed as current, and for every loop created so far (named by
    its serial number) whether it has been closed. *)
Module Asyncio.
Record State : Type :=
  { running_loop : option nat;
    current_loop : option nat;
    closed : list bool }.
End Asyncio.

(** What the script puts on the page. *)
Inductive Element : Type :=
| PageConfig (page_title : string)
| Title (body : string)
| TextInput (label : string)
| Slider (label : string) (min_value max_value value : Z)
| Button (label : string)
| Spinner (text : string)
| Container
| ChatMessage (name markdown : string)
| Success (body : string).

(** The state one run of the script works on; [litrev_calls] records the
    arguments of every [run_litrev] generator that was started. *)
Record Session : Type :=
  { world : World;
    loops : Asyncio.State;
    page : list Element;
    litrev_calls : list (string * Z) }.

Definition UI (A : Type) : Type := Session -> (Py.exn + A) * Session.

Definition ui_ret {A} (a : A) : UI A := fun s => (inr a, s).

Definition ui_bind {A B} (f : A -> UI B) (m : UI A) : UI B :=
  fun s =>
    match m s with
    | (inl e, s') => (inl e, s')
    | (inr a, s') => f a s'
    end.

Definition ui_raise {A} (e : Py.exn) : UI A := fun s => (inl e, s).

#[global] Instance UI_ret : MRet UI := @ui_ret.
#[global] Instance UI_bind : MBind UI := @ui_bind.

(** [try: body except RuntimeError: handler] *)
Definition try_except_RuntimeError {A} (body handler : UI A) : UI A :=
  fun s =>
    match body s with
    | (inl e, s') => if Py.is_RuntimeError e then handler s' else (inl e, s')
    | (inr a, s') => (inr a, s')
    end.

Definition put (e : Element) : UI unit :=
  fun s =>
    (inr tt,
     {| world := world s; loops := loops s;
        page := (page s ++ [e])%list; litrev_calls := litrev_calls s |}).

Definition set_loops (l : Asyncio.State) : UI unit :=
  fun s =>
    (inr tt,
     {| world := world s; loops := l;
        page := page s; litrev_calls := litrev_calls s |}).

Definition get_loops : UI Asyncio.State := fun s => (inr (loops s), s).

(** [asyncio.new_event_loop()] *)
Definition new_event_loop : UI nat :=
  l ← get_loops;
  set_loops {| Asyncio.running_loop := Asyncio.running_loop l;
               Asyncio.current_loop := Asyncio.current_loop l;
               Asyncio.closed := (Asyncio.closed l ++ [false])%list |};;
  mret (length (Asyncio.closed l)).

(** [asyncio.set_event_loop(loop)] *)
Definition set_event_loop (loop : option nat) : UI unit :=
  l ← get_loops;
  set_loops {| Asyncio.running_loop := Asyncio.running_loop l;
               Asyncio.current_loop := loop;
               Asyncio.closed := Asyncio.closed l |}.

Definition set_running (loop : option nat) : UI unit :=
  l ← get_loops;
  set_loops {| Asyncio.running_loop := loop;
               Asyncio.current_loop := Asyncio.current_loop l;
               Asyncio.closed := Asyncio.closed l |}.

(** [loop.close()] *)
Definition loop_close (loop : nat) : UI unit :=
  l ← get_loops;
  set_loops {| Asyncio.running_loop := Asyncio.running_loop l;
               Asyncio.current_loop := Asyncio.current_loop l;
               Asyncio.closed := <[loop := true]> (Asyncio.closed l) |}.

(** [try: body finally: cleanup], for a cleanup that does not raise. *)
Definition try_finally {A} (body : UI A) (cleanup : UI unit) : UI A :=
  fun s =>
    let '(r, s') := body s in
    (r, snd (cleanup s')).

(** [loop.run_until_complete(main)]: refused on a closed loop and while a
    loop is running in the thread; otherwise [main] runs on [loop]. *)
Definition run_until_complete {A} (loop : nat) (main : UI A) : UI A :=
  l ← get_loops;
  if default true (Asyncio.closed l !! loop) then
    ui_raise (Py.RuntimeError "Event loop is closed")
  else
    match Asyncio.running_loop l with
    | Some _ =>
        ui_raise
          (Py.RuntimeError "Cannot run the event loop while another loop is running")
    | None =>
        set_running (Some loop);;
        try_finally main (set_running None)
    end.

(** [asyncio.run(main)]: refused while a loop is running in the thread;
    otherwise a new loop is created and installed, [main] runs on it, and
    in any case the loop is uninstalled and closed. *)
Definition asyncio_run {A} (main : UI A) : UI A :=
  l ← get_loops;
  match Asyncio.running_loop l with
  | Some _ =>
      ui_raise
        (Py.RuntimeError "asyncio.run() cannot be called from a running event loop")
  | None =>
      loop ← new_event_loop;
      set_event_loop (Some loop);;
      try_finally (run_until_complete loop main)
        (set_event_loop None;; loop_close loop)
  end.

(** The [except RuntimeError] branch of frontend.py, lines 39-41. *)
Definition fallback {A} (main : UI A) : UI A :=
  loop ← new_event_loop;
  set_event_loop (Some loop);;
  run_until_complete loop main.

Section Frontend.

Context (sv : Services).

(** The body of the loop in [_runner]: one frame becomes one chat entry. *)
Definition render (frame : string) : Element :=
  let '(role, rest) := Py.split_colon frame in
  let content := match rest with Some r => Py.strip r | None => "" end in
  ChatMessage "assistant" ("**" +:+ role +:+ "**: " +:+ content).

(** [async for frame in run_litrev(query, num_papers=n_papers)]: the
    generator is started and every frame it yields is rendered, also
    those yielded before an exception. *)
Definition render_frames (query : string) (n_papers : Z) : UI unit :=
  fun s =>
    let '(frames, r, w) :=
      run_litrev sv query n_papers build_team_model_default (world s) in
    (r,
     {| world := w; loops := loops s;
        page := (page s ++ map render frames)%list;
        litrev_calls := (litrev_calls s ++ [(query, n_papers)])%list |}).

Definition _runner (query : string) (n_papers : Z) : UI unit :=
  put Container;;
  render_frames query n_papers.

(** [st.slider(label, 1, 10, 5)]: the position the user left the slider
    at, which the widget keeps between its bounds. *)
Definition st_slider (label : string) (min_value max_value value position : Z)
  : UI Z :=
  put (Slider label min_value max_value value);;
  mret (Z.max min_value (Z.min max_value position)).

(** One run of the script, for the text in the topic field, the position
    of the slider and whether the button was pressed. *)
Definition frontend (topic : string) (position : Z) (pressed : bool) : UI unit :=
  put (PageConfig "Literature Review Assistant");;
  put (Title "Literature Review Assistant");;
  query ← (put (TextInput "Research topic");; mret topic);
  n_papers ← st_slider "Number of papers" 1 10 5 position;
  button ← (put (Button "Search");; mret pressed);
  if button && Py.truthy query then
    put (Spinner "Working...");;
    try_except_RuntimeError
      (asyncio_run (_runner query n_papers))
      (fallback (_runner query n_papers));;
    put (Success "Review completed!")
  else mret tt.

End Frontend.

(** ** Vocabulary of the statements *)

(** The search [arxiv_search] builds from its two arguments. *)
Definition search_for (query : string) (max_results : Z) : Arxiv.Search :=
  {| Arxiv.query := query;
     Arxiv.max_results := max_results;
     Arxiv.sort_by := Arxiv.Relevance |}.

(** The world one call of [arxiv_search] leaves behind: one more client,
    one more search, sent by that client. *)
Definition after_search (query : string) (max_results : Z) (w : World) : World :=
  {| environ := environ w;
     clients_made := S (clients_made w);
     searches := (searches w ++ [(clients_made w, search_for query max_results)])%list;
     inferences := inferences w;
     turn_log := turn_log w |}.

(** What [arxiv_search] returns for an answer of the feed: the exception
    passed on, or one paper record per result. *)
Definition reshaped (sv : Services) (answer : Py.exn + list Arxiv.Result)
  : Py.exn + list Paper :=
  match answer with
  | inl e => inl e
  | inr results => inr (map (paper_of sv) results)
  end.

(** A [datetime] (month 1 to 12, day 1 to 31) with a four-digit year, as
    every arXiv timestamp has. *)
Definition four_digit_year (d : Py.datetime) : Prop :=
  1000 <= Py.year d <= 9999 /\ 1 <= Py.month d <= 12 /\ 1 <= Py.day d <= 31.


(** Two worlds with the same environment, inference log and turn log. *)
Definition same_log (w w' : World) : Prop :=
  environ w' = environ w
  /\ inferences w' = inferences w
  /\ turn_log w' = turn_log w.


(** Between [w] and [w'] exactly one search was sent, and it asks for up
    to [n] results. *)
Definition one_search_for (n : Z) (w w' : World) : Prop :=
  exists client query,
    searches w' = (searches w ++ [(client, search_for query n)])%list.

(** The text messages of a stream, as (source, content), in order. *)
Definition text_messages (items : list Autogen.StreamItem)
  : list (string * string) :=
  flat_map (fun item =>
              match item with
              | Autogen.Item (Autogen.TextMessage source content) =>
                  [(source, content)]
              | _ => []
              end) items.

Definition is_TextMessage (item : Autogen.StreamItem) : bool :=
  match item with
  | Autogen.Item (Autogen.TextMessage _ _) => true
  | _ => false
  end.

(** The line [run_litrev] yields for a text message. *)
Definition labeled (frame : string * string) : string :=
  fst frame +:+ ": " +:+ snd frame.

(** The five widgets every run of the script draws. *)
Definition widgets : list Element :=
  [PageConfig "Literature Review Assistant";
   Title "Literature Review Assistant";
   TextInput "Research topic";
   Slider "Number of papers" 1 10 5;
   Button "Search"].

(** ** Sample services and states, for running the definitions *)

Module Sample.

Definition result : Arxiv.Result :=
  {| Arxiv.title := "Graph Attention Networks";
     Arxiv.authors := [ {| Arxiv.name := "P. Velickovic" |} ];
     Arxiv.published := {| Py.year := 2017; Py.month := 10; Py.day := 30 |};
     Arxiv.summary := "We present graph attention networks.";
     Arxiv.pdf_url := Some "http://arxiv.org/pdf/1710.10903" |}.

Definition call (arguments : string) : Autogen.FunctionCall :=
  {| Autogen.id := "call_1";
     Autogen.name := "arxiv_search";
     Autogen.arguments := arguments |}.

(** The feed holds three results and returns at most [max_results] of
    them; the second search finds the feed one result shorter.  The
    model asks for one search with the arguments [arguments], then
    answers with fixed texts. *)
Definition services (arguments : string) (max_results : option Z) : Services :=
  {| libc_pads_year := false;
     arxiv_feed := fun t s =>
       inr (firstn (Z.to_nat (Arxiv.max_results s))
              (skipn t [result; result; result]));
     bind_arguments := fun a => inr (a, max_results);
     repr_papers := fun papers => Py.str_int (Z.of_nat (length papers));
     str_exn := fun _ => "error";
     complete := fun t _ _ _ => inr ("text " +:+ Py.str_int (Z.of_nat t));
     complete_with_tools := fun _ _ _ _ _ =>
       inr (Autogen.Calls [call arguments]) |}.

(** A feed with nothing in it. *)
Definition silent : Services :=
  {| libc_pads_year := false;
     arxiv_feed := fun _ _ => inr [];
     bind_arguments := fun a => inr (a, None);
     repr_papers := fun _ => "[]";
     str_exn := fun _ => "error";
     complete := fun _ _ _ _ => inr "text";
     complete_with_tools := fun _ _ _ _ _ => inr (Autogen.Content "text") |}.

(** A model that follows the retriever's instructions for three papers
    (one search, asking for fifteen) and then writes [retrieved] as the
    retriever's text and [review] as the writer's. *)
Definition scripted (retrieved review : string) : Services :=
  {| libc_pads_year := false;
     arxiv_feed := fun _ s =>
       inr (firstn (Z.to_nat (Arxiv.max_results s)) [result; result; result]);
     bind_arguments := fun a => inr (a, Some 15);
     repr_papers := fun papers => Py.str_int (Z.of_nat (length papers));
     str_exn := fun _ => "error";
     complete := fun t _ _ _ =>
       inr (if (t =? 1)%nat then retrieved else review);
     complete_with_tools := fun _ _ _ _ _ =>
       inr (Autogen.Calls [call "graph neural networks"]) |}.

(** A model whose first inference raises [RuntimeError] and which
    answers with text from then on. *)
Definition flaky : Services :=
  {| libc_pads_year := false;
     arxiv_feed := fun _ _ => inr [];
     bind_arguments := fun a => inr (a, None);
     repr_papers := fun _ => "[]";
     str_exn := fun _ => "error";
     complete := fun _ _ _ _ => inr "review";
     complete_with_tools := fun t _ _ _ _ =>
       if (t =? 0)%nat then inl (Py.RuntimeError "Event loop is closed")
       else inr (Autogen.Content "papers") |}.

Definition untouched : World :=
  {| environ := ∅; clients_made := 0; searches := [];
     inferences := []; turn_log := [] |}.

Definition idle : Asyncio.State :=
  {| Asyncio.running_loop := None;
     Asyncio.current_loop := None;
     Asyncio.closed := [] |}.

(** A thread in which loop 0 is already running. *)
Definition busy : Asyncio.State :=
  {| Asyncio.running_loop := Some 0%nat;
     Asyncio.current_loop := Some 0%nat;
     Asyncio.closed := [false] |}.

Definition session (l : Asyncio.State) : Session :=
  {| world := untouched; loops := l; page := []; litrev_calls := [] |}.

End Sample.

(** ** The demo of backend.py *)

Section Demo.

Context (sv : Services).

(** [_demo] (backend.py, lines 138-140): the run for five papers on one
    fixed topic, with the default model; every line is printed.  The
    lines printed are the items of the generator. *)
Definition _demo : Gen string unit :=
  async_for
    (run_litrev sv "neural networks for biochemistry" 5 build_team_model_default)
    (fun line => [line]).

End Demo.

(** ** Vocabulary of the further statements *)

Fixpoint has_colon (s : string) : bool :=
  match s with
  | EmptyString => false
  | String c rest => Ascii.eqb c ":" || has_colon rest
  end.

(** The chat entry the script shows for a text message: the source in
    bold, then the content without the white space around it. *)
Definition entry (frame : string * string) : Element :=
  ChatMessage "assistant"
    ("**" +:+ fst frame +:+ "**: " +:+ Py.strip (snd frame)).

(** The number the slider hands to the script. *)
Definition slider_value (position : Z) : Z := Z.max 1 (Z.min 10 position).

Definition digit_value (c : ascii) : Z := Z.of_nat (nat_of_ascii c) - 48.

(** The date written in a string of the shape YYYY-MM-DD. *)
Definition read_Ymd (s : string) : option Py.datetime :=
  match list_ascii_of_string s with
  | [y1; y2; y3; y4; _; m1; m2; _; d1; d2] =>
      Some {| Py.year := 1000 * digit_value y1 + 100 * digit_value y2
                         + 10 * digit_value y3 + digit_value y4;
              Py.month := 10 * digit_value m1 + digit_value m2;
              Py.day := 10 * digit_value d1 + digit_value d2 |}
  | _ => None
  end.

(** The tool calls of the model's answer to the retriever's first
    inference of a run that starts in [w]; none when the answer is text
    or an exception. *)
Definition calls_requested (sv : Services) (topic : string) (num_papers : Z)
    (model : string) (w : World) : list Autogen.FunctionCall :=
  let llm_client :=
    Autogen.OpenAIChatCompletionClient (environ w) model (Some "your-key-here") in
  match complete_with_tools sv (length (inferences w)) llm_client
          (Agent.system_message (search_agent sv llm_client)) ["arxiv_search"]
          [Autogen.TextMessage "user" (task_prompt topic num_papers)] with
  | inr (Autogen.Calls calls) => calls
  | _ => []
  end.

(** More sample services. *)
Module Scenario.

(** The arXiv service is down. *)
Definition down : Services :=
  {| libc_pads_year := false;
     arxiv_feed := fun _ _ => inl (Py.OtherError "HTTPError" "503");
     bind_arguments := fun a => inr (a, None);
     repr_papers := fun _ => "[]";
     str_exn := fun _ => "HTTPError";
     complete := fun _ _ _ _ => inr "text";
     complete_with_tools := fun _ _ _ _ _ =>
       inr (Autogen.Calls [Sample.call "gnn"]) |}.




End Scenario.

(** ** build_team and run_litrev with the model name checked

    [OpenAIChatCompletionClient(model=.., api_key=..)] looks the model
    name up and raises [ValueError] for a name it has no model info for.
    [refused model] is the message of that error, [None] for a name the
    installed client library accepts.  [Guarded.build_team] and
    [Guarded.run_litrev] are [build_team] and [run_litrev] with this
    check: what [build_team] above builds is the team for an accepted
    name. *)
Module Guarded.

Section WithClientLibrary.

Context (refused : string -> option string) (sv : Services).

Definition OpenAIChatCompletionClient
    (environ : gmap string string) (model : string) (api_key : option string)
  : Py.exn + Autogen.ModelClient :=
  match refused model with
  | Some msg => inl (Py.OtherError "ValueError" msg)
  | None => inr (Autogen.OpenAIChatCompletionClient environ model api_key)
  end.

(** backend.py, lines 73-117: the exception of the constructor at line 75
    leaves [build_team] before any agent is made. *)
Definition build_team (environ : gmap string string) (model : string)
  : Py.exn + Team.RoundRobinGroupChat :=
  match OpenAIChatCompletionClient environ model (Some "your-key-here") with
  | inl e => inl e
  | inr llm_client =>
      inr {| Team.participants :=
               [search_agent sv llm_client; summarizer_agent llm_client];
             Team.termination_condition := None;
             Team.max_turns := 2 |}
  end.

(** backend.py, lines 120-134: [build_team] runs when the generator is
    first advanced, so its exception comes before anything is yielded. *)
Definition run_litrev (topic : string) (num_papers : Z) (model : string)
  : Gen string unit :=
  fun w =>
    match build_team (environ w) model with
    | inl e => ([], inl e, w)
    | inr team =>
        async_for (run_stream sv team (task_prompt topic num_papers)) surface w
    end.

End WithClientLibrary.

End Guarded.

(** ** Vocabulary of the revised statements *)

(** Text of ASCII characters only; on such text [str.strip] strips
    exactly the characters of [Py.is_space]. *)
Definition is_ascii (s : string) : bool :=
  forallb (fun c => (nat_of_ascii c <? 128)%nat) (list_ascii_of_string s).




(** * Properties *)

(** ** The definitions at work *)

Example str_int_examples :
  Py.str_int 3 = "3" /\ Py.str_int 15 = "15" /\ Py.str_int 0 = "0"
  /\ Py.str_int (-7) = "-7" /\ Py.str_int 2024 = "2024".
Proof. vm_compute. repeat split. Qed.

Example strftime_examples :
  Py.strftime_Ymd false {| Py.year := 2017; Py.month := 10; Py.day := 30 |}
  = "2017-10-30"
  /\ Py.strftime_Ymd true {| Py.year := 2017; Py.month := 1; Py.day := 9 |}
     = "2017-01-09"
  /\ Py.strftime_Ymd true {| Py.year := 5; Py.month := 1; Py.day := 2 |}
     = "0005-01-02"
  /\ Py.strftime_Ymd false {| Py.year := 5; Py.month := 1; Py.day := 2 |}
     = "5-01-02".
Proof. vm_compute. repeat split. Qed.

(** Below the year 1000 the shape depends on the C library. *)
Example bare_year_is_short :
  Py.is_YYYY_MM_DD
    (Py.strftime_Ymd false {| Py.year := 5; Py.month := 1; Py.day := 2 |})
  = false.
Proof. vm_compute. reflexivity. Qed.

Example render_examples :
  render "search_agent: [1] Graph Attention Networks "
  = ChatMessage "assistant" "**search_agent**: [1] Graph Attention Networks"
  /\ render "user: a: b" = ChatMessage "assistant" "**user**: a: b"
  /\ render "no colon" = ChatMessage "assistant" "**no colon**: ".
Proof. vm_compute. repeat split. Qed.

(** A run with the sample services: the task, the tool-call request and
    its result, the two texts and the task result. *)
Example run_stream_example :
  map is_TextMessage
    (run_stream (Sample.services "gnn" (Some 15))
       (build_team (Sample.services "gnn" (Some 15)) ∅ "gpt-4o-mini")
       "task" Sample.untouched).1.1
  = [true; false; false; true; true; false].
Proof. vm_compute. reflexivity. Qed.

(** ** Digits and dates *)

Ltac div_lia := Z.to_euclidean_division_equations; lia.



(** From 1000 to 9999 the bare year and the padded year are the same four
    digits. *)
Lemma str_nonneg_four_digits (y : Z) :
  1000 <= y <= 9999 -> Py.str_nonneg y = Py.pad4 y.
Proof.
  intros Hy. unfold Py.str_nonneg, Py.pad4, Py.pad2.
  assert (Hlog : 9 <= Z.log2 y).
  { change 9 with (Z.log2 512). apply Z.log2_le_mono. lia. }
  destruct (Z.to_nat (Z.log2 y)) as [| [| [| fuel]]] eqn:Hfuel; try lia.
  cbn [Py.decimal].
  destruct (Z.ltb_spec y 10); [lia |].
  destruct (Z.ltb_spec (y / 10) 10); [div_lia |].
  destruct (Z.ltb_spec (y / 10 / 10) 10); [div_lia |].
  assert (H1000 : y / 10 / 10 / 10 < 10) by div_lia.
  replace (y / 10 / 10 / 10) with (y / 1000) in * by div_lia.
  replace (y / 10 / 10) with (y / 100) in * by div_lia.
  destruct fuel; cbn [Py.decimal]; [reflexivity |].
  destruct (Z.ltb_spec (y / 1000) 10); [reflexivity | div_lia].
Qed.


(** ** The search tool *)

Section SearchTool.

Context (sv : Services).

Lemma papers_loop (results : list Arxiv.Result) (papers : list Paper) :
  fold_left (fun papers result => (papers ++ [paper_of sv result])%list)
    results papers
  = (papers ++ map (paper_of sv) results)%list.
Proof.
  revert papers. induction results as [| r results IH]; intros papers; cbn.
  - now rewrite app_nil_r.
  - rewrite IH, <- app_assoc. reflexivity.
Qed.

(** [arxiv_search] in one equation: a new client, one search sent, and
    the feed's answer reshaped record by record. *)
Lemma arxiv_search_eq (query : string) (max_results : Z) (w : World) :
  arxiv_search sv query max_results w
  = (reshaped sv
       (arxiv_feed sv (length (searches w)) (search_for query max_results)),
     after_search query max_results w).
Proof.
  unfold arxiv_search, mbind, IO_bind, io_bind, mret, IO_ret, io_ret,
    Client_new, Client_results, after_search, search_for, reshaped. cbn.
  destruct (arxiv_feed sv _ _) as [e | results]; [reflexivity |].
  now rewrite papers_loop.
Qed.



(** C6.  When the search service has no result for the query,
    [arxiv_search] returns the empty list and raises nothing. *)
Theorem arxiv_search_no_results
    (query : string) (max_results : Z) (w : World) :
  arxiv_feed sv (length (searches w)) (search_for query max_results) = inr [] ->
  fst (arxiv_search sv query max_results w) = inr [].
Proof. intros Hfeed. now rewrite arxiv_search_eq, Hfeed. Qed.

End SearchTool.

(** C5.  No caching.  Two calls of [arxiv_search] with the same query and
    the same [max_results] send two searches, each through a client
    constructed for that call, and each call returns what the feed
    answers to its own search; a feed that answers the second search
    differently makes the two results differ. *)
Theorem arxiv_search_no_caching :
  (forall (sv : Services) (query : string) (max_results : Z) (w : World),
      let search := search_for query max_results in
      let '(first, w1) := arxiv_search sv query max_results w in
      let '(second, w2) := arxiv_search sv query max_results w1 in
      searches w2
      = (searches w ++ [(clients_made w, search);
                        (S (clients_made w), search)])%list
      /\ clients_made w2 = S (S (clients_made w))
      /\ first = reshaped sv (arxiv_feed sv (length (searches w)) search)
      /\ second = reshaped sv (arxiv_feed sv (S (length (searches w))) search))
  /\ (exists (sv : Services) (query : string) (max_results : Z) (w : World),
         fst (arxiv_search sv query max_results w)
         <> fst (arxiv_search sv query max_results
                   (snd (arxiv_search sv query max_results w)))).
Proof.
  split.
  - intros sv query max_results w search.
    rewrite !arxiv_search_eq. cbn.
    rewrite length_app, Nat.add_1_r, <- app_assoc. cbn. auto.
  - exists (Sample.services "gnn" None), "gnn", 3, Sample.untouched.
    vm_compute. discriminate.
Qed.



(** C6 at a feed with nothing in it. *)
Lemma arxiv_search_no_results_witness :
  fst (arxiv_search Sample.silent "no such topic" 5 Sample.untouched) = inr [].
Proof.
  apply (arxiv_search_no_results Sample.silent "no such topic" 5 Sample.untouched).
  reflexivity.
Defined.

(** ** One turn of an agent *)

Ltac step_monad :=
  unfold mbind, mret, IO_bind, IO_ret, Gen_bind, Gen_ret, UI_bind, UI_ret,
    io_bind, io_ret, io_lift, io_raise, gen_bind, gen_ret, gen_lift, gen_raise,
    gen_map, yield, ui_bind, ui_ret, ui_raise.

Section Turns.

Context (sv : Services).


Lemma same_log_trans (w1 w2 w3 : World) :
  same_log w1 w2 -> same_log w2 w3 -> same_log w1 w3.
Proof. unfold same_log. intros (? & ? & ?) (? & ? & ?). repeat split; congruence. Qed.




(** Whatever an agent yields or returns in its turn carries the agent's
    name as source, and what it yields is no chat message. *)
Lemma on_messages_stream_sources
    (a : Agent.AssistantAgent) (context : list Autogen.Message) (w : World) :
  Forall (fun m => Autogen.source_of m = Agent.name a
                   /\ Autogen.is_chat_message m = false)
    (on_messages_stream sv a context w).1.1
  /\ (forall m, (on_messages_stream sv a context w).1.2 = inr m ->
                Autogen.source_of m = Agent.name a).
Proof.
  unfold on_messages_stream. step_monad.
  destruct (infer sv a context w) as [[e | [text | calls]] w1]; cbn.
  - split; [constructor | discriminate].
  - split; [constructor |]. intros m [= <-]. reflexivity.
  - destruct (execute_tool_calls sv a calls w1) as [[e | results] w2]; cbn.
    + split; [repeat constructor | discriminate].
    + destruct (Agent.reflect_on_tool_use a); cbn.
      * match goal with
        | |- context [complete sv ?t ?c ?s ?ctx] =>
            destruct (complete sv t c s ctx) as [e | text]; cbn
        end.
        -- split; [repeat constructor | discriminate].
        -- split; [repeat constructor |]. intros m [= <-]. reflexivity.
      * split; [repeat constructor |]. intros m [= <-]. reflexivity.
Qed.



End Turns.

(** ** The turn loop and the transcript *)

Section Conversation.

Context (sv : Services).

(** One turn that succeeds, in a team without termination condition:
    the speaker's events and response are yielded and the loop goes on
    with one turn less. *)
Lemma rounds_step
    (team : Team.RoundRobinGroupChat) (budget turn : nat)
    (thread : list Autogen.Message) (speaker : Agent.AssistantAgent)
    (w : World) (events : list Autogen.Message) (response : Autogen.Message)
    (w' : World) :
  Team.participants team !! (turn mod length (Team.participants team))%nat
  = Some speaker ->
  Team.termination_condition team = None ->
  on_messages_stream sv speaker (chat_context thread)
    (snd (log_turn (Agent.name speaker) w))
  = (events, inr response, w') ->
  rounds sv team (S budget) turn thread w
  = (let '(items, r, w'') :=
       rounds sv team budget (S turn) (thread ++ events ++ [response])%list w' in
     ((map Autogen.Item events ++ Autogen.Item response :: items)%list, r, w'')).
Proof.
  intros Hspeaker Hnone Hturn. cbn [rounds].
  rewrite Hspeaker, Hnone.
  step_monad. cbn in Hturn |- *. rewrite Hturn.
  destruct (rounds sv team budget (S turn) _ w') as [[items r] w''].
  reflexivity.
Qed.

(** Every item the turn loop yields is a message whose source is one of
    the participants. *)
Lemma rounds_sources
    (team : Team.RoundRobinGroupChat) (budget turn : nat)
    (thread : list Autogen.Message) (w : World) :
  Forall (fun item =>
            exists m, item = Autogen.Item m
                      /\ In (Autogen.source_of m)
                           (map Agent.name (Team.participants team)))
    (rounds sv team budget turn thread w).1.1.
Proof.
  revert turn thread w.
  induction budget as [| budget IH]; intros turn thread w; cbn [rounds].
  - constructor.
  - destruct (Team.participants team !! _) as [speaker |] eqn:Hspeaker;
      [| constructor].
    assert (Hin : In (Agent.name speaker)
                    (map Agent.name (Team.participants team))).
    { apply in_map, list_elem_of_In. eapply list_elem_of_lookup_2, Hspeaker. }
    step_monad. cbn.
    match goal with
    | |- context [on_messages_stream sv speaker ?ctx ?w1] =>
        pose proof (on_messages_stream_sources sv speaker ctx w1) as [Hev Hresp];
        destruct (on_messages_stream sv speaker ctx w1)
          as [[events [e | response]] w2]
    end; cbn in *.
    + rewrite Forall_map. eapply Forall_impl; [exact Hev |].
      intros m [Hm _]. exists m. now rewrite Hm.
    + assert (Hsent :
               Forall (fun item =>
                         exists m, item = Autogen.Item m
                                   /\ In (Autogen.source_of m)
                                        (map Agent.name (Team.participants team)))
                 (map Autogen.Item events ++ [Autogen.Item response])).
      { apply Forall_app. split.
        - rewrite Forall_map. eapply Forall_impl; [exact Hev |].
          intros m [Hm _]. exists m. now rewrite Hm.
        - repeat constructor. exists response.
          now rewrite (Hresp response eq_refl). }
      destruct (Team.termination_condition team) as [stop |].
      * destruct (stop _); cbn.
        -- exact Hsent.
        -- specialize (IH (S turn) (thread ++ events ++ [response])%list w2).
           destruct (rounds sv team budget (S turn) _ w2) as [[items r] w3].
           cbn in *.
           apply Forall_app in Hsent as [Hsent1 Hsent2].
           apply Forall_app. split; [exact Hsent1 |].
           apply Forall_cons. split; [now inversion Hsent2 | exact IH].
      * specialize (IH (S turn) (thread ++ events ++ [response])%list w2).
        destruct (rounds sv team budget (S turn) _ w2) as [[items r] w3].
        cbn in *.
           apply Forall_app in Hsent as [Hsent1 Hsent2].
           apply Forall_app. split; [exact Hsent1 |].
           apply Forall_cons. split; [now inversion Hsent2 | exact IH].
Qed.

(** [run_stream] in one equation: the task, what the turn loop yields,
    and the [TaskResult] when the loop ends well. *)
Lemma run_stream_eq (team : Team.RoundRobinGroupChat) (task : string) (w : World) :
  run_stream sv team task w
  = (let '(items, r, w') :=
       rounds sv team (Team.max_turns team) 0
         [Autogen.TextMessage "user" task] w in
     (Autogen.Item (Autogen.TextMessage "user" task)
        :: items
        ++ match r with
           | inl _ => []
           | inr (thread, reason) => [Autogen.TaskResult thread reason]
           end,
      match r with inl e => inl e | inr _ => inr tt end,
      w')).
Proof.
  unfold run_stream. step_monad.
  destruct (rounds sv team _ 0 _ w) as [[items [e | [thread reason]]] w'].
  - cbn. now rewrite app_nil_r.
  - reflexivity.
Qed.

Lemma text_messages_app (xs ys : list Autogen.StreamItem) :
  text_messages (xs ++ ys) = (text_messages xs ++ text_messages ys)%list.
Proof. apply flat_map_app. Qed.

(** The sources of a stream of the team of [build_team]: the user, who
    sets the task, and the two agents. *)
Lemma run_stream_sources
    (environ : gmap string string) (model task : string) (w : World) :
  Forall (fun frame =>
            In (fst frame) ["user"; "search_agent"; "summarizer_agent"])
    (text_messages (run_stream sv (build_team sv environ model) task w).1.1).
Proof.
  rewrite run_stream_eq.
  pose proof (rounds_sources (build_team sv environ model)
                (Team.max_turns (build_team sv environ model)) 0
                [Autogen.TextMessage "user" task] w) as Hsrc.
  destruct (rounds sv (build_team sv environ model) _ 0 _ w)
    as [[items r] w'].
  cbn [fst] in Hsrc |- *.
  change (Autogen.Item (Autogen.TextMessage "user" task) :: ?l)
    with ([Autogen.Item (Autogen.TextMessage "user" task)] ++ l)%list.
  rewrite !text_messages_app.
  apply Forall_app_2; [| apply Forall_app_2].
  - repeat constructor.
  - induction Hsrc as [| item items (m & -> & Hm) _ IH]; [constructor |].
    destruct m; cbn; try exact IH.
    constructor; [| exact IH]. cbn in Hm |- *. tauto.
  - destruct r as [e | [thread reason]]; constructor.
Qed.

Lemma surface_labeled (items : list Autogen.StreamItem) :
  flat_map surface items = map labeled (text_messages items).
Proof.
  induction items as [| item items IH]; [reflexivity |].
  destruct item as [[] |]; cbn; try exact IH.
  f_equal. exact IH.
Qed.

Lemma surface_events (events : list Autogen.Message) :
  Forall (fun m => Autogen.is_chat_message m = false) events ->
  flat_map surface (map Autogen.Item events) = [].
Proof.
  induction 1 as [| m events Hm _ IH]; [reflexivity |].
  destruct m; try discriminate; exact IH.
Qed.

End Conversation.

Section Transcript.

Context (sv : Services).


(** C8.  Every line [run_litrev] yields is a source label, a colon and
    a space, and the content, with a label that is not empty: the
    lines are, one for one and in the order of emission, the text
    messages of the team's stream. *)
Theorem run_litrev_labeled_lines
    (topic : string) (num_papers : Z) (model : string) (w : World) :
  let frames :=
    text_messages
      (run_stream sv (build_team sv (environ w) model)
         (task_prompt topic num_papers) w).1.1 in
  (run_litrev sv topic num_papers model w).1.1 = map labeled frames
  /\ Forall (fun frame => fst frame <> "") frames.
Proof.
  intros frames. split.
  - unfold run_litrev, async_for, frames.
    destruct (run_stream sv _ _ w) as [[items r] w'].
    cbn [fst]. apply surface_labeled.
  - eapply Forall_impl; [apply run_stream_sources |].
    intros [source content] Hin. cbn in Hin |- *.
    destruct Hin as [<- | [<- | [<- | []]]]; discriminate.
Qed.


(** C10.  [run_litrev] yields exactly what [surface] makes of the items
    of the team's stream, in order; [surface] gives one frame for a
    [TextMessage] and none for anything else, so that tool-call
    requests, tool results, tool summaries and the final task result
    leave no line. *)
Theorem run_litrev_text_messages_only
    (topic : string) (num_papers : Z) (model : string) (w : World) :
  (run_litrev sv topic num_papers model w).1.1
  = flat_map surface
      (run_stream sv (build_team sv (environ w) model)
         (task_prompt topic num_papers) w).1.1
  /\ (forall item,
        length (surface item) = if is_TextMessage item then 1%nat else 0%nat)
  /\ (forall item source content,
        surface item = [source +:+ ": " +:+ content]
        -> is_TextMessage item = true)
  /\ (forall source calls,
        surface (Autogen.Item (Autogen.ToolCallRequestEvent source calls)) = [])
  /\ (forall source results,
        surface (Autogen.Item (Autogen.ToolCallExecutionEvent source results)) = []).
Proof.
  split; [| split; [| split; [| split]]].
  - unfold run_litrev, async_for.
    now destruct (run_stream sv _ _ w) as [[items r] w'].
  - intros [[] |]; reflexivity.
  - intros item source content Hitem.
    destruct item as [[] |]; cbn in Hitem |- *; congruence.
  - reflexivity.
  - reflexivity.
Qed.

End Transcript.

(** ** What the searches of a run depend on *)

Section OverFetch.

Context (sv : Services).

(** One turn that raises ends the loop with that exception. *)
Lemma rounds_fail
    (team : Team.RoundRobinGroupChat) (budget turn : nat)
    (thread : list Autogen.Message) (speaker : Agent.AssistantAgent)
    (w : World) (events : list Autogen.Message) (e : Py.exn) (w' : World) :
  Team.participants team !! (turn mod length (Team.participants team))%nat
  = Some speaker ->
  on_messages_stream sv speaker (chat_context thread)
    (snd (log_turn (Agent.name speaker) w))
  = (events, inl e, w') ->
  rounds sv team (S budget) turn thread w
  = (map Autogen.Item events, inl e, w').
Proof.
  intros Hspeaker Hturn. cbn [rounds]. rewrite Hspeaker.
  step_monad. cbn in Hturn |- *. rewrite Hturn. reflexivity.
Qed.

Lemma run_litrev_world
    (topic : string) (num_papers : Z) (model : string) (w : World) :
  (run_litrev sv topic num_papers model w).2
  = (rounds sv (build_team sv (environ w) model) 2 0
       [Autogen.TextMessage "user" (task_prompt topic num_papers)] w).2.
Proof.
  unfold run_litrev, async_for. rewrite run_stream_eq.
  change (Team.max_turns (build_team sv (environ w) model)) with 2%nat.
  now destruct (rounds sv _ 2 0 _ w) as [[items r] w'].
Qed.

(** A call of the search tool whose arguments bind: one search is sent,
    by a new client, and the call gives a result. *)
Lemma execute_arxiv_call
    (llm_client : Autogen.ModelClient) (call : Autogen.FunctionCall)
    (w : World) (query : string) (max_results : option Z) :
  Autogen.name call = "arxiv_search" ->
  bind_arguments sv (Autogen.arguments call) = inr (query, max_results) ->
  exists result,
    execute_tool_call sv (search_agent sv llm_client) call w
    = (inr result,
       after_search query
         (default arxiv_search_max_results_default max_results) w).
Proof.
  intros Hname Hbind. unfold execute_tool_call. rewrite Hname.
  replace (find _ (Agent.tools (search_agent sv llm_client)))
    with (Some (arxiv_tool sv)) by reflexivity.
  cbn [arxiv_tool Tool.func]. unfold arxiv_search_run. step_monad.
  rewrite Hbind, arxiv_search_eq.
  destruct (arxiv_feed sv _ _) as [e | results]; eexists; reflexivity.
Qed.

(** The retriever's turn when the model asks for one search: that search
    is sent, by a new client, and no other. *)
Lemma search_agent_turn_one_call
    (llm_client : Autogen.ModelClient) (context : list Autogen.Message)
    (w : World) (call : Autogen.FunctionCall) (query : string)
    (max_results : option Z) :
  complete_with_tools sv (length (inferences w)) llm_client
    (Agent.system_message (search_agent sv llm_client)) ["arxiv_search"]
    context
  = inr (Autogen.Calls [call]) ->
  Autogen.name call = "arxiv_search" ->
  bind_arguments sv (Autogen.arguments call) = inr (query, max_results) ->
  searches (on_messages_stream sv (search_agent sv llm_client) context w).2
  = (searches w
       ++ [(clients_made w,
            search_for query
              (default arxiv_search_max_results_default max_results))])%list.
Proof.
  intros Hcalls Hname Hbind.
  unfold on_messages_stream, infer, reflect, log_inference. step_monad.
  cbn [search_agent Agent.tools Agent.name Agent.reflect_on_tool_use
         Agent.model_client Agent.system_message map arxiv_tool Tool.name]
    in Hcalls |- *.
  rewrite Hcalls.
  cbn [execute_tool_calls]. step_monad.
  match goal with
  | |- context [execute_tool_call sv ?a call ?w1] =>
      change a with (search_agent sv llm_client);
      destruct (execute_arxiv_call llm_client call w1 query max_results
                  Hname Hbind) as [result ->]
  end.
  cbn.
  match goal with
  | |- context [complete sv ?t ?c ?s ?ctx] =>
      destruct (complete sv t c s ctx)
  end; reflexivity.
Qed.

(** The writer has no tool: its turn sends no search. *)
Lemma summarizer_agent_turn_searches
    (llm_client : Autogen.ModelClient) (context : list Autogen.Message)
    (w : World) :
  searches (on_messages_stream sv (summarizer_agent llm_client) context w).2
  = searches w.
Proof.
  unfold on_messages_stream, infer, log_inference. step_monad.
  cbn [summarizer_agent Agent.tools Agent.name Agent.model_client
         Agent.system_message].
  match goal with
  | |- context [complete sv ?t ?c ?s ?ctx] => destruct (complete sv t c s ctx)
  end; reflexivity.
Qed.

End OverFetch.

(** C7, as stated, fails: the model decides what is searched.  With a
    model that asks the tool for three results only, the run for three
    papers on graph neural networks does not send one search for
    fifteen. *)
Lemma over_fetch_not_enforced :
  ~ one_search_for 15 Sample.untouched
      (run_litrev (Sample.services "graph neural networks" (Some 3))
         "graph neural networks" 3 build_team_model_default
         Sample.untouched).2.
Proof.
  intros (client & query & Hsearches).
  vm_compute in Hsearches. discriminate Hsearches.
Qed.

(** C7, amended.  For a request of three papers the task names the
    number 3, and when the model answers the retriever's first
    inference with a single call of [arxiv_search] whose arguments bind
    [max_results] to 15, the run sends exactly one search, asking for up
    to fifteen results.  What the two turns say is the model's text:
    any two texts can be the retriever's and the writer's entries of a
    run whose model asks for the fifteen results, and nothing counts
    papers or bullets in them. *)
Theorem over_fetch_follows_the_model
    (sv : Services) (topic model : string) (w : World)
    (call : Autogen.FunctionCall) (query : string) :
  let llm_client :=
    Autogen.OpenAIChatCompletionClient (environ w) model (Some "your-key-here") in
  complete_with_tools sv (length (inferences w)) llm_client
    (Agent.system_message (search_agent sv llm_client)) ["arxiv_search"]
    [Autogen.TextMessage "user" (task_prompt topic 3)]
  = inr (Autogen.Calls [call]) ->
  Autogen.name call = "arxiv_search" ->
  bind_arguments sv (Autogen.arguments call) = inr (query, Some 15) ->
  task_prompt topic 3
  = "Conduct a literature review on **" +:+ topic
      +:+ "** and return exactly 3 papers."
  /\ searches (run_litrev sv topic 3 model w).2
     = (searches w ++ [(clients_made w, search_for query 15)])%list
  /\ forall retrieved review : string,
       exists sv' : Services,
         one_search_for 15 Sample.untouched
           (run_litrev sv' "graph neural networks" 3 build_team_model_default
              Sample.untouched).2
         /\ (run_litrev sv' "graph neural networks" 3 build_team_model_default
               Sample.untouched).1
            = (["user: " +:+ task_prompt "graph neural networks" 3;
                "search_agent: " +:+ retrieved;
                "summarizer_agent: " +:+ review],
               inr tt).
Proof.
  intros llm_client Hcalls Hname Hbind.
  split; [reflexivity |]. split.
  - rewrite run_litrev_world.
    set (team := build_team sv (environ w) model).
    set (first := Autogen.TextMessage "user" (task_prompt topic 3)).
    pose proof (search_agent_turn_one_call sv llm_client (chat_context [first])
                  (snd (log_turn "search_agent" w)) call query (Some 15)
                  Hcalls Hname Hbind) as Hsearch.
    destruct (on_messages_stream sv (search_agent sv llm_client)
                (chat_context [first]) (snd (log_turn "search_agent" w)))
      as [[events [e | response]] w1] eqn:Hturn1.
    + rewrite (rounds_fail sv team 1 0 [first] (search_agent sv llm_client) w
                 events e w1 eq_refl Hturn1).
      exact Hsearch.
    + rewrite (rounds_step sv team 1 0 [first] (search_agent sv llm_client) w
                 events response w1 eq_refl eq_refl Hturn1).
      set (thread1 := ([first] ++ events ++ [response])%list).
      pose proof (summarizer_agent_turn_searches sv llm_client
                    (chat_context thread1)
                    (snd (log_turn "summarizer_agent" w1))) as Hquiet.
      destruct (on_messages_stream sv (summarizer_agent llm_client)
                  (chat_context thread1) (snd (log_turn "summarizer_agent" w1)))
        as [[events2 [e | response2]] w2] eqn:Hturn2.
      * rewrite (rounds_fail sv team 0 1 thread1 (summarizer_agent llm_client)
                   w1 events2 e w2 eq_refl Hturn2).
        cbn in Hquiet, Hsearch |- *. congruence.
      * rewrite (rounds_step sv team 0 1 thread1 (summarizer_agent llm_client)
                   w1 events2 response2 w2 eq_refl eq_refl Hturn2).
        cbn in Hquiet, Hsearch |- *. congruence.
  - intros retrieved review. exists (Sample.scripted retrieved review). split.
    + exists 0%nat, "graph neural networks". reflexivity.
    + reflexivity.
Qed.

(** C7 amended, at the model that asks for fifteen results. *)
Lemma over_fetch_follows_the_model_witness :
  searches
    (run_litrev (Sample.services "graph neural networks" (Some 15))
       "graph neural networks" 3 build_team_model_default Sample.untouched).2
  = [(0%nat, search_for "graph neural networks" 15)].
Proof.
  apply (over_fetch_follows_the_model
           (Sample.services "graph neural networks" (Some 15))
           "graph neural networks" build_team_model_default Sample.untouched
           (Sample.call "graph neural networks") "graph neural networks");
    reflexivity.
Defined.





(** ** The Streamlit script *)

Ltac step_script :=
  unfold frontend, st_slider, put, try_except_RuntimeError, asyncio_run,
    fallback, run_until_complete, new_event_loop, set_event_loop, set_running,
    loop_close, try_finally, get_loops, set_loops, _runner, render_frames;
  step_monad.

Section Script.

Context (sv : Services).

(** C3.  With an empty topic the script draws its widgets and stops,
    whether or not the button was pressed: no [run_litrev] generator is
    started, nothing is searched or inferred, and no event loop is
    touched. *)
Theorem empty_topic_is_inert (position : Z) (pressed : bool) (s : Session) :
  frontend sv "" position pressed s
  = (inr tt,
     {| world := world s;
        loops := loops s;
        page := (page s ++ widgets)%list;
        litrev_calls := litrev_calls s |}).
Proof.
  step_script. cbn. rewrite andb_false_r.
  rewrite <- !app_assoc. reflexivity.
Qed.

(** What [_runner] does to a session: the loops are left alone. *)
Lemma runner_eq (query : string) (n_papers : Z) (s : Session) :
  _runner sv query n_papers s
  = (let '(frames, r, w) :=
       run_litrev sv query n_papers build_team_model_default (world s) in
     (r,
      {| world := w;
         loops := loops s;
         page := (page s ++ Container :: map render frames)%list;
         litrev_calls := (litrev_calls s ++ [(query, n_papers)])%list |})).
Proof.
  unfold _runner, render_frames, put. step_monad. cbn.
  destruct (run_litrev sv query n_papers _ (world s)) as [[frames r] w].
  now rewrite <- app_assoc.
Qed.

(** [asyncio.run] in a thread without a running loop: the loop it
    creates is closed and uninstalled when it returns or raises. *)
Lemma asyncio_run_idle (query : string) (n_papers : Z) (s : Session) :
  Asyncio.running_loop (loops s) = None ->
  asyncio_run (_runner sv query n_papers) s
  = (let '(frames, r, w) :=
       run_litrev sv query n_papers build_team_model_default (world s) in
     (r,
      {| world := w;
         loops := {| Asyncio.running_loop := None;
                     Asyncio.current_loop := None;
                     Asyncio.closed :=
                       (Asyncio.closed (loops s) ++ [true])%list |};
         page := (page s ++ Container :: map render frames)%list;
         litrev_calls := (litrev_calls s ++ [(query, n_papers)])%list |})).
Proof.
  destruct s as [w [running current closed] elements calls].
  cbn. intros ->.
  unfold asyncio_run, run_until_complete, new_event_loop, set_event_loop,
    set_running, loop_close, try_finally, get_loops, set_loops.
  step_monad. cbn.
  rewrite lookup_app_r by lia. rewrite Nat.sub_diag. cbn.
  rewrite runner_eq. cbn.
  destruct (run_litrev sv query n_papers _ w) as [[frames r] w1]. cbn.
  rewrite insert_app_r_alt by lia. rewrite Nat.sub_diag. reflexivity.
Qed.

(** [asyncio.run] in a thread with a running loop: refused, nothing
    changes and the coroutine is not started. *)
Lemma asyncio_run_busy {A} (main : UI A) (s : Session) (running : nat) :
  Asyncio.running_loop (loops s) = Some running ->
  asyncio_run main s
  = (inl (Py.RuntimeError
            "asyncio.run() cannot be called from a running event loop"), s).
Proof.
  intros Hbusy. unfold asyncio_run, get_loops. step_monad. now rewrite Hbusy.
Qed.

(** The fallback in a thread without a running loop: the pipeline runs
    on a new loop, which stays installed and open. *)
Lemma fallback_idle (query : string) (n_papers : Z) (s : Session) :
  Asyncio.running_loop (loops s) = None ->
  fallback (_runner sv query n_papers) s
  = (let '(frames, r, w) :=
       run_litrev sv query n_papers build_team_model_default (world s) in
     (r,
      {| world := w;
         loops := {| Asyncio.running_loop := None;
                     Asyncio.current_loop :=
                       Some (length (Asyncio.closed (loops s)));
                     Asyncio.closed :=
                       (Asyncio.closed (loops s) ++ [false])%list |};
         page := (page s ++ Container :: map render frames)%list;
         litrev_calls := (litrev_calls s ++ [(query, n_papers)])%list |})).
Proof.
  destruct s as [w [running current closed] elements calls].
  cbn. intros ->.
  unfold fallback, run_until_complete, new_event_loop, set_event_loop,
    set_running, try_finally, get_loops, set_loops.
  step_monad. cbn.
  rewrite lookup_app_r by lia. rewrite Nat.sub_diag. cbn.
  rewrite runner_eq. cbn.
  now destruct (run_litrev sv query n_papers _ w) as [[frames r] w1].
Qed.

(** The fallback in a thread with a running loop: a loop is created and
    installed, and [run_until_complete] is refused. *)
Lemma fallback_busy {A} (main : UI A) (s : Session) (running : nat) :
  Asyncio.running_loop (loops s) = Some running ->
  fallback main s
  = (inl (Py.RuntimeError
            "Cannot run the event loop while another loop is running"),
     {| world := world s;
        loops := {| Asyncio.running_loop := Some running;
                    Asyncio.current_loop :=
                      Some (length (Asyncio.closed (loops s)));
                    Asyncio.closed :=
                      (Asyncio.closed (loops s) ++ [false])%list |};
        page := page s;
        litrev_calls := litrev_calls s |}).
Proof.
  destruct s as [w [running' current closed] elements calls].
  cbn. intros ->.
  unfold fallback, run_until_complete, new_event_loop, set_event_loop,
    get_loops, set_loops.
  step_monad. cbn.
  rewrite lookup_app_r by lia. rewrite Nat.sub_diag. reflexivity.
Qed.

(** The loop the fallback creates is never closed and stays the
    thread's current loop, whether the request completes, raises or is
    refused. *)
Lemma fallback_keeps_its_loop (query : string) (n_papers : Z) (s : Session) :
  let s' := (fallback (_runner sv query n_papers) s).2 in
  Asyncio.current_loop (loops s') = Some (length (Asyncio.closed (loops s)))
  /\ Asyncio.closed (loops s') = (Asyncio.closed (loops s) ++ [false])%list.
Proof.
  destruct (Asyncio.running_loop (loops s)) as [running |] eqn:Hrunning.
  - rewrite (fallback_busy _ s running Hrunning). now split.
  - rewrite (fallback_idle query n_papers s Hrunning).
    now destruct (run_litrev sv query n_papers _ (world s)) as [[frames r] w].
Qed.

(** By contrast, a pressed button with a topic gets through the guard:
    in a thread without a running loop a [run_litrev] generator is
    started with the topic and the number of the slider. *)
Lemma topic_and_button_start_the_pipeline
    (topic : string) (position : Z) (s : Session) :
  Py.truthy topic = true ->
  Asyncio.running_loop (loops s) = None ->
  exists rest,
    litrev_calls (frontend sv topic position true s).2
    = (litrev_calls s ++ (topic, Z.max 1 (Z.min 10 position)) :: rest)%list.
Proof.
  intros Htopic Hidle.
  unfold frontend, st_slider, put, try_except_RuntimeError. step_monad.
  cbn. rewrite Htopic. cbn.
  rewrite asyncio_run_idle by exact Hidle. cbn.
  destruct (run_litrev sv topic _ _ (world s)) as [[frames [e | []]] w1];
    [destruct (Py.is_RuntimeError e) |]; cbn; eauto.
  rewrite fallback_idle by reflexivity. cbn.
  destruct (run_litrev sv topic _ _ w1) as [[frames2 [e2 | []]] w2]; cbn;
    rewrite <- app_assoc; eauto.
Qed.

End Script.

(** C4.  The loop the except-branch creates is not discarded.  Whatever
    the services and the session, after the fallback the new loop is the
    thread's current loop and is open.  Two runs of the script show it.
    When the first attempt raises [RuntimeError] inside the pipeline, the
    request is run a second time on the fallback's loop and completes,
    and loop 1 stays installed and open, while loop 0, which
    [asyncio.run] made, is closed.  When a loop is already running in the
    thread, [asyncio.run] is refused, the fallback installs loop 1, and
    [run_until_complete] is refused as well: the request never runs and
    loop 1 stays installed and open.  On the path without exception, by
    contrast, the loop [asyncio.run] made for the request is closed and
    uninstalled. *)
Theorem fallback_loop_outlives_the_request :
  (forall (sv : Services) (query : string) (n_papers : Z) (s : Session),
      let s' := (fallback (_runner sv query n_papers) s).2 in
      Asyncio.current_loop (loops s') = Some (length (Asyncio.closed (loops s)))
      /\ Asyncio.closed (loops s') = (Asyncio.closed (loops s) ++ [false])%list)
  /\ (let '(r, s') :=
        frontend Sample.flaky "graph neural networks" 5 true
          (Sample.session Sample.idle) in
      r = inr tt
      /\ loops s' = {| Asyncio.running_loop := None;
                       Asyncio.current_loop := Some 1%nat;
                       Asyncio.closed := [true; false] |}
      /\ litrev_calls s'
         = [("graph neural networks", 5); ("graph neural networks", 5)])
  /\ (let '(r, s') :=
        frontend Sample.silent "graph neural networks" 5 true
          (Sample.session Sample.busy) in
      r = inl (Py.RuntimeError
                 "Cannot run the event loop while another loop is running")
      /\ loops s' = {| Asyncio.running_loop := Some 0%nat;
                       Asyncio.current_loop := Some 1%nat;
                       Asyncio.closed := [false; false] |}
      /\ litrev_calls s' = [])
  /\ (let '(r, s') :=
        frontend Sample.silent "graph neural networks" 5 true
          (Sample.session Sample.idle) in
      r = inr tt
      /\ loops s' = {| Asyncio.running_loop := None;
                       Asyncio.current_loop := None;
                       Asyncio.closed := [true] |}
      /\ litrev_calls s' = [("graph neural networks", 5)]).
Proof.
  split; [exact fallback_keeps_its_loop |].
  split; [| split]; vm_compute; repeat split.
Qed.

(** * Further properties of the code *)

(** ** Frames on their way to the page *)

Lemma append_cons (c : ascii) (s t : string) :
  String c s +:+ t = String c (s +:+ t).
Proof. reflexivity. Qed.

Lemma has_colon_cons (c : ascii) (s : string) :
  has_colon (String c s) = false ->
  Ascii.eqb c ":" = false /\ has_colon s = false.
Proof. cbn. now intros [-> ->]%orb_false_elim. Qed.

(** [split(":", 1)] cuts at the first colon: a label without colon comes
    back whole, and so does everything after the colon. *)
Lemma split_colon_label (label rest : string) :
  has_colon label = false ->
  Py.split_colon (label +:+ String ":" rest) = (label, Some rest).
Proof.
  induction label as [| c label IH]; intros Hlabel.
  - reflexivity.
  - apply has_colon_cons in Hlabel as [Hc Hlabel].
    rewrite append_cons. cbn [Py.split_colon].
    now rewrite Hc, (IH Hlabel).
Qed.

Lemma split_colon_none (frame : string) :
  has_colon frame = false -> Py.split_colon frame = (frame, None).
Proof.
  induction frame as [| c frame IH]; intros Hframe.
  - reflexivity.
  - apply has_colon_cons in Hframe as [Hc Hframe].
    cbn [Py.split_colon]. now rewrite Hc, (IH Hframe).
Qed.

Lemma render_label (source content : string) :
  has_colon source = false ->
  render (labeled (source, content)) = entry (source, content).
Proof.
  intros Hsource. unfold render, labeled, entry. cbn [fst snd].
  change (": " +:+ content) with (String ":" (String " " content)).
  now rewrite (split_colon_label source _ Hsource).
Qed.

(** X1.  What [run_litrev] joins, [_runner] takes apart again: for a
    source without colon and a content of ASCII characters, the line
    "source: content" is shown as the source in bold followed by the
    content, stripped of the white space around it; colons inside the
    content do no harm. *)
Theorem render_labeled_frame (source content : string) :
  has_colon source = false ->
  is_ascii content = true ->
  render (source +:+ ": " +:+ content)
  = ChatMessage "assistant" ("**" +:+ source +:+ "**: " +:+ Py.strip content).
Proof. intros Hsource _. exact (render_label source content Hsource). Qed.

Lemma render_labeled_frame_witness :
  render ("search_agent" +:+ ": " +:+ " [1] Attention: a survey ")
  = ChatMessage "assistant"
      ("**" +:+ "search_agent" +:+ "**: " +:+ Py.strip " [1] Attention: a survey ").
Proof.
  apply (render_labeled_frame "search_agent" " [1] Attention: a survey ");
    reflexivity.
Defined.

(** X2.  A frame without any colon is shown whole as the role, with an
    empty content. *)
Theorem render_frame_without_colon (frame : string) :
  has_colon frame = false ->
  render frame = ChatMessage "assistant" ("**" +:+ frame +:+ "**: ").
Proof.
  intros Hframe. unfold render. now rewrite (split_colon_none frame Hframe).
Qed.

Lemma render_frame_without_colon_witness :
  render "rate limit reached"
  = ChatMessage "assistant" ("**" +:+ "rate limit reached" +:+ "**: ").
Proof. apply (render_frame_without_colon "rate limit reached"). reflexivity. Defined.

(** X3.  What [_runner] puts on the page, for every run whose text
    messages are ASCII text and also when the run ends in an exception: a
    container and then, for each text message of the team's stream and in
    the same order, its source in bold and its stripped content.  No
    other item of the stream is shown. *)
Theorem runner_shows_the_text_messages
    (sv : Services) (query : string) (n_papers : Z) (s : Session) :
  let shown :=
    text_messages
      (run_stream sv
         (build_team sv (environ (world s)) build_team_model_default)
         (task_prompt query n_papers) (world s)).1.1 in
  Forall (fun frame => is_ascii (snd frame) = true) shown ->
  page (_runner sv query n_papers s).2
  = (page s ++ Container :: map entry shown)%list.
Proof.
  intros shown _. subst shown.
  rewrite runner_eq. unfold run_litrev, async_for.
  pose proof (run_stream_sources sv (environ (world s)) build_team_model_default
                (task_prompt query n_papers) (world s)) as Hsources.
  destruct (run_stream sv _ _ (world s)) as [[items r] w].
  cbn [fst snd page] in Hsources |- *.
  rewrite surface_labeled. do 2 f_equal.
  induction Hsources as [| [source content] frames Hsource _ IH]; [reflexivity |].
  cbn [map]. rewrite IH. f_equal.
  apply render_label.
  cbn in Hsource. destruct Hsource as [<- | [<- | [<- | []]]]; reflexivity.
Qed.

Lemma runner_shows_the_text_messages_witness :
  page (_runner Sample.silent "graph neural networks" 3
          (Sample.session Sample.idle)).2
  = [Container;
     entry ("user", task_prompt "graph neural networks" 3);
     entry ("search_agent", "text");
     entry ("summarizer_agent", "text")].
Proof.
  apply (runner_shows_the_text_messages Sample.silent "graph neural networks" 3
           (Sample.session Sample.idle)).
  vm_compute. repeat constructor.
Defined.

(** ** The published date *)

Lemma digit_value_digit (d : Z) : 0 <= d <= 9 -> digit_value (Py.digit d) = d.
Proof.
  intros Hd.
  assert (Hcases : d = 0 \/ d = 1 \/ d = 2 \/ d = 3 \/ d = 4 \/ d = 5
                   \/ d = 6 \/ d = 7 \/ d = 8 \/ d = 9) by lia.
  repeat (destruct Hcases as [-> | Hcases]; [reflexivity |]).
  subst d. reflexivity.
Qed.

Lemma digit_value_mod10 (n : Z) : digit_value (Py.digit (n mod 10)) = n mod 10.
Proof. apply digit_value_digit. pose proof (Z.mod_pos_bound n 10). lia. Qed.

(** X4.  The published string of a paper record is the date of its
    result: read back digit by digit it gives the year, month and day the
    result carries, on either kind of C library. *)
Theorem published_reads_back (sv : Services) (result : Arxiv.Result) :
  four_digit_year (Arxiv.published result) ->
  read_Ymd (published (paper_of sv result)) = Some (Arxiv.published result).
Proof.
  intros Hdate. pose proof Hdate as (Hy & Hm & Hd).
  cbn [paper_of published]. unfold Py.strftime_Ymd.
  replace (if libc_pads_year sv then Py.pad4 (Py.year (Arxiv.published result))
           else Py.str_nonneg (Py.year (Arxiv.published result)))
    with (Py.pad4 (Py.year (Arxiv.published result)))
    by (destruct (libc_pads_year sv);
        [reflexivity | symmetry; now apply str_nonneg_four_digits]).
  unfold Py.pad4, Py.pad2, read_Ymd.
  cbv beta iota fix delta [append list_ascii_of_string].
  rewrite !digit_value_mod10.
  destruct (Arxiv.published result) as [y m d]. cbn in *.
  do 2 f_equal; div_lia.
Qed.

Lemma published_reads_back_witness :
  read_Ymd (published (paper_of (Sample.services "gnn" None) Sample.result))
  = Some {| Py.year := 2017; Py.month := 10; Py.day := 30 |}.
Proof.
  apply (published_reads_back (Sample.services "gnn" None) Sample.result).
  unfold four_digit_year. cbn. lia.
Defined.

(** ** Failures and defaults of the search tool *)

(** X5.  When the arXiv client raises, [arxiv_search] raises the same
    exception: the one search it sent is not repeated and no other client
    is made. *)
Theorem arxiv_search_failure_is_not_retried
    (sv : Services) (query : string) (max_results : Z) (w : World) (e : Py.exn) :
  arxiv_feed sv (length (searches w)) (search_for query max_results) = inl e ->
  arxiv_search sv query max_results w
  = (inl e,
     {| environ := environ w;
        clients_made := S (clients_made w);
        searches :=
          (searches w ++ [(clients_made w, search_for query max_results)])%list;
        inferences := inferences w;
        turn_log := turn_log w |}).
Proof. intros Hfeed. now rewrite arxiv_search_eq, Hfeed. Qed.

Lemma arxiv_search_failure_is_not_retried_witness :
  arxiv_search Scenario.down "gnn" 5 Sample.untouched
  = (inl (Py.OtherError "HTTPError" "503"),
     {| environ := ∅;
        clients_made := 1;
        searches := [(0%nat, search_for "gnn" 5)];
        inferences := [];
        turn_log := [] |}).
Proof.
  apply (arxiv_search_failure_is_not_retried Scenario.down "gnn" 5
           Sample.untouched).
  reflexivity.
Defined.

(** X6.  A call of the tool that leaves [max_results] out searches for
    five results, the default of the parameter, and hands the records
    back as text. *)
Theorem tool_call_without_max_results
    (sv : Services) (arguments query : string) (w : World) :
  bind_arguments sv arguments = inr (query, None) ->
  arxiv_search_run sv arguments w
  = (match arxiv_feed sv (length (searches w)) (search_for query 5) with
     | inl e => inl e
     | inr results => inr (repr_papers sv (map (paper_of sv) results))
     end,
     after_search query 5 w).
Proof.
  intros Hbind. unfold arxiv_search_run. step_monad.
  rewrite Hbind, arxiv_search_eq.
  now destruct (arxiv_feed sv _ _).
Qed.

Lemma tool_call_without_max_results_witness :
  searches (arxiv_search_run (Sample.services "gnn" None) "gnn" Sample.untouched).2
  = [(0%nat, search_for "gnn" 5)].
Proof.
  rewrite (tool_call_without_max_results (Sample.services "gnn" None)
             "gnn" "gnn" Sample.untouched); reflexivity.
Defined.

(** ** Every run, also the failing ones *)

Section EveryRun.

Context (sv : Services).

(** One tool call of the search agent sends at most one search, sorted by
    relevance, and never raises. *)
Lemma execute_tool_call_effect
    (llm_client : Autogen.ModelClient) (call : Autogen.FunctionCall) (w : World) :
  exists result w' new,
    execute_tool_call sv (search_agent sv llm_client) call w = (inr result, w')
    /\ same_log w w'
    /\ searches w' = (searches w ++ new)%list
    /\ (length new <= 1)%nat
    /\ Forall (fun cs => Arxiv.sort_by (snd cs) = Arxiv.Relevance) new.
Proof.
  unfold execute_tool_call. cbn [search_agent Agent.tools find].
  destruct (String.eqb _ _).
  - cbn [arxiv_tool Tool.func]. unfold arxiv_search_run. step_monad.
    destruct (bind_arguments sv (Autogen.arguments call))
      as [e | [query max_results]].
    + eexists _, w, []. rewrite app_nil_r.
      repeat split; auto.
    + rewrite arxiv_search_eq.
      destruct (arxiv_feed sv _ _) as [e | results]; cbn;
        eexists _, _, [_]; repeat split; cbn; auto.
  - eexists _, w, []. rewrite app_nil_r. repeat split; auto.
Qed.

Lemma execute_tool_calls_effect
    (llm_client : Autogen.ModelClient) (calls : list Autogen.FunctionCall)
    (w : World) :
  exists results w' new,
    execute_tool_calls sv (search_agent sv llm_client) calls w = (inr results, w')
    /\ same_log w w'
    /\ searches w' = (searches w ++ new)%list
    /\ (length new <= length calls)%nat
    /\ Forall (fun cs => Arxiv.sort_by (snd cs) = Arxiv.Relevance) new.
Proof.
  revert w. induction calls as [| call calls IH]; intros w; cbn [execute_tool_calls].
  - exists [], w, []. rewrite app_nil_r. repeat split; auto.
  - destruct (execute_tool_call_effect llm_client call w)
      as (r & w1 & new1 & Hr & Hlog1 & Hs1 & Hlen1 & Hrel1).
    destruct (IH w1) as (rs & w2 & new2 & Hrs & Hlog2 & Hs2 & Hlen2 & Hrel2).
    exists (r :: rs), w2, (new1 ++ new2)%list. step_monad. rewrite Hr, Hrs.
    split; [reflexivity |].
    split; [eapply same_log_trans; eassumption |].
    split; [now rewrite Hs2, Hs1, app_assoc |].
    split; [rewrite length_app; cbn; lia | now apply Forall_app].
Qed.

(** The retriever's turn, whatever the model and arXiv do. *)
Lemma search_agent_outcome
    (llm_client : Autogen.ModelClient) (context : list Autogen.Message)
    (w : World) :
  let answer :=
    complete_with_tools sv (length (inferences w)) llm_client
      (Agent.system_message (search_agent sv llm_client)) ["arxiv_search"]
      context in
  let out := on_messages_stream sv (search_agent sv llm_client) context w in
  turn_log out.2 = turn_log w
  /\ environ out.2 = environ w
  /\ (forall m, out.1.2 = inr m ->
                exists text, m = Autogen.TextMessage "search_agent" text)
  /\ (exists k, (1 <= k <= 2)%nat
                /\ inferences out.2
                   = (inferences w ++ repeat "search_agent" k)%list)
  /\ exists new,
       searches out.2 = (searches w ++ new)%list
       /\ (length new
           <= length (match answer with
                      | inr (Autogen.Calls calls) => calls
                      | _ => []
                      end))%nat
       /\ Forall (fun cs => Arxiv.sort_by (snd cs) = Arxiv.Relevance) new.
Proof.
  intros answer out. subst answer out.
  unfold on_messages_stream, infer, reflect, log_inference. step_monad.
  cbn [search_agent Agent.tools Agent.name Agent.reflect_on_tool_use
         Agent.model_client Agent.system_message map arxiv_tool Tool.name].
  destruct (complete_with_tools sv _ _ _ _ _) as [e | [text | calls]]; cbn.
  - repeat split; try discriminate.
    + exists 1%nat. split; [lia | reflexivity].
    + exists []. rewrite app_nil_r. repeat split; auto.
  - repeat split.
    + intros m [= <-]. eauto.
    + exists 1%nat. split; [lia | reflexivity].
    + exists []. rewrite app_nil_r. repeat split; auto.
  - match goal with
    | |- context [execute_tool_calls sv ?a calls ?w1] =>
        destruct (execute_tool_calls_effect llm_client calls w1)
          as (results & w2 & new & -> & (He & Hi & Ht) & Hs & Hlen & Hrel)
    end.
    cbn in He, Hi, Ht, Hs |- *.
    match goal with
    | |- context [complete sv ?t ?c ?s ?ctx] =>
        destruct (complete sv t c s ctx) as [e | text]
    end; cbn; (repeat split; try assumption; try discriminate).
    + exists 2%nat. split; [lia |]. rewrite Hi, <- app_assoc. reflexivity.
    + exists new. auto.
    + intros m [= <-]. eauto.
    + exists 2%nat. split; [lia |]. rewrite Hi, <- app_assoc. reflexivity.
    + exists new. auto.
Qed.

(** The writer's turn, whatever the model does: one inference, no event,
    no search. *)
Lemma summarizer_agent_outcome
    (llm_client : Autogen.ModelClient) (context : list Autogen.Message)
    (w : World) :
  let out := on_messages_stream sv (summarizer_agent llm_client) context w in
  out.1.1 = []
  /\ turn_log out.2 = turn_log w
  /\ (forall m, out.1.2 = inr m ->
                exists text, m = Autogen.TextMessage "summarizer_agent" text)
  /\ inferences out.2 = (inferences w ++ ["summarizer_agent"])%list
  /\ searches out.2 = searches w.
Proof.
  intros out. subst out.
  unfold on_messages_stream, infer, log_inference. step_monad.
  cbn [summarizer_agent Agent.tools Agent.name Agent.model_client
         Agent.system_message].
  match goal with
  | |- context [complete sv ?t ?c ?s ?ctx] =>
      destruct (complete sv t c s ctx) as [e | text]
  end; cbn; repeat split; try discriminate.
  intros m [= <-]. eauto.
Qed.

End EveryRun.

Section RunSummary.

Context (sv : Services).

Lemma lines_after_events
    (first : Autogen.StreamItem) (events : list Autogen.Message)
    (rest : list Autogen.StreamItem) :
  Forall (fun m => Autogen.source_of m = "search_agent"
                   /\ Autogen.is_chat_message m = false) events ->
  flat_map surface (first :: map Autogen.Item events ++ rest)%list
  = (surface first ++ flat_map surface rest)%list.
Proof.
  intros Hevents. cbn [flat_map]. rewrite flat_map_app, surface_events.
  - reflexivity.
  - eapply Forall_impl; [exact Hevents |]. now intros m [_ Hm].
Qed.

(** What a run comes to, in each of the three ways it can end: the first
    turn raises, the second turn raises, or both turns are taken. *)
Lemma run_summary (topic : string) (num_papers : Z) (model : string) (w : World) :
  let out := run_litrev sv topic num_papers model w in
  exists said turns infs new,
    out.1.1 = ("user: " +:+ task_prompt topic num_papers) :: map labeled said
    /\ turn_log out.2 = (turn_log w ++ turns)%list
    /\ inferences out.2 = (inferences w ++ infs)%list
    /\ (1 <= length infs <= 3)%nat
    /\ searches out.2 = (searches w ++ new)%list
    /\ (length new <= length (calls_requested sv topic num_papers model w))%nat
    /\ Forall (fun cs => Arxiv.sort_by (snd cs) = Arxiv.Relevance) new
    /\ ((said = [] /\ turns = ["search_agent"] /\ exists e, out.1.2 = inl e)
        \/ (exists retrieved,
               said = [("search_agent", retrieved)]
               /\ turns = ["search_agent"; "summarizer_agent"]
               /\ exists e, out.1.2 = inl e)
        \/ (exists retrieved review,
               said = [("search_agent", retrieved); ("summarizer_agent", review)]
               /\ turns = ["search_agent"; "summarizer_agent"]
               /\ out.1.2 = inr tt)).
Proof.
  intros out. subst out. unfold run_litrev, async_for. rewrite run_stream_eq.
  set (team := build_team sv (environ w) model).
  change (Team.max_turns team) with 2%nat.
  set (llm_client :=
         Autogen.OpenAIChatCompletionClient (environ w) model (Some "your-key-here")).
  set (asked := Autogen.TextMessage "user" (task_prompt topic num_papers)).
  pose proof (search_agent_outcome sv llm_client (chat_context [asked])
                (snd (log_turn "search_agent" w)))
    as (Hturns1 & _ & Hresp1 & (k & Hk & Hinfs1) & new & Hnew & Hlen & Hrel).
  pose proof (on_messages_stream_sources sv (search_agent sv llm_client)
                (chat_context [asked]) (snd (log_turn "search_agent" w)))
    as [Hevents1 _].
  destruct (on_messages_stream sv (search_agent sv llm_client)
              (chat_context [asked]) (snd (log_turn "search_agent" w)))
    as [[events1 [e1 | response1]] w1] eqn:Hturn1;
    cbn in Hturns1, Hresp1, Hinfs1, Hnew, Hevents1.
  - rewrite (rounds_fail sv team 1 0 [asked] (search_agent sv llm_client) w
               events1 e1 w1 eq_refl Hturn1).
    exists [], ["search_agent"], (repeat "search_agent" k), new.
    cbn [fst snd]. rewrite (lines_after_events (Autogen.Item asked) events1 [] Hevents1).
    repeat split; try assumption.
    + rewrite repeat_length. lia.
    + rewrite repeat_length. lia.
    + left. eauto.
  - destruct (Hresp1 response1 eq_refl) as [retrieved ->].
    rewrite (rounds_step sv team 1 0 [asked] (search_agent sv llm_client) w
               events1 _ w1 eq_refl eq_refl Hturn1).
    set (thread1 := ([asked] ++ events1
                       ++ [Autogen.TextMessage "search_agent" retrieved])%list).
    pose proof (summarizer_agent_outcome sv llm_client (chat_context thread1)
                  (snd (log_turn "summarizer_agent" w1)))
      as (Hevents2 & Hturns2 & Hresp2 & Hinfs2 & Hquiet).
    destruct (on_messages_stream sv (summarizer_agent llm_client)
                (chat_context thread1) (snd (log_turn "summarizer_agent" w1)))
      as [[events2 [e2 | response2]] w2] eqn:Hturn2;
      cbn in Hevents2, Hturns2, Hresp2, Hinfs2, Hquiet; subst events2.
    + rewrite (rounds_fail sv team 0 1 thread1 (summarizer_agent llm_client) w1
                 [] e2 w2 eq_refl Hturn2).
      exists [("search_agent", retrieved)], ["search_agent"; "summarizer_agent"],
        (repeat "search_agent" k ++ ["summarizer_agent"])%list, new.
      cbn [fst snd]. rewrite app_nil_r. cbn [map].
      rewrite (lines_after_events (Autogen.Item asked) events1
                 [Autogen.Item (Autogen.TextMessage "search_agent" retrieved)]
                 Hevents1).
      repeat split; try assumption.
      * rewrite Hturns2, Hturns1, <- app_assoc. reflexivity.
      * rewrite Hinfs2, Hinfs1, <- app_assoc. reflexivity.
      * rewrite length_app, repeat_length. cbn. lia.
      * rewrite length_app, repeat_length. cbn. lia.
      * congruence.
      * right. left. eauto.
    + destruct (Hresp2 response2 eq_refl) as [review ->].
      rewrite (rounds_step sv team 0 1 thread1 (summarizer_agent llm_client) w1
                 [] _ w2 eq_refl eq_refl Hturn2).
      exists [("search_agent", retrieved); ("summarizer_agent", review)],
        ["search_agent"; "summarizer_agent"],
        (repeat "search_agent" k ++ ["summarizer_agent"])%list, new.
      cbn [rounds mret Gen_ret gen_ret fst snd map app].
      rewrite <- app_assoc. cbn [map app].
      match goal with
      | |- context [(map Autogen.Item events1 ++ ?rest)%list] =>
          rewrite (lines_after_events (Autogen.Item asked) events1 rest Hevents1)
      end.
      repeat split; try assumption.
      * rewrite Hturns2, Hturns1, <- app_assoc. reflexivity.
      * rewrite Hinfs2, Hinfs1, <- app_assoc. reflexivity.
      * rewrite length_app, repeat_length. cbn. lia.
      * rewrite length_app, repeat_length. cbn. lia.
      * congruence.
      * right. right. eauto.
Qed.

End RunSummary.





(** X9.  A run reaches arXiv only through the tool calls of the model's
    answer to the retriever's first inference: it sends at most one
    search per such call, none when that answer is text or an exception,
    and every search it sends is sorted by relevance. *)
Theorem searches_are_the_models_tool_calls
    (sv : Services) (topic : string) (num_papers : Z) (model : string)
    (w : World) :
  let out := run_litrev sv topic num_papers model w in
  exists new,
    searches out.2 = (searches w ++ new)%list
    /\ (length new
        <= length (calls_requested sv topic num_papers model w))%nat
    /\ Forall (fun cs => Arxiv.sort_by (snd cs) = Arxiv.Relevance) new.
Proof.
  intros out.
  destruct (run_summary sv topic num_papers model w)
    as (said & turns & infs & new & _ & _ & _ & _ & Hnew & Hlen & Hrel & _).
  exists new. auto.
Qed.

(** X10.  The demo prints the transcript of its one request line by line:
    the task for five papers on neural networks for biochemistry first,
    then at most two lines, and it ends as the run ends. *)
Theorem demo_prints_the_transcript (sv : Services) (w : World) :
  _demo sv w
  = run_litrev sv "neural networks for biochemistry" 5 "gpt-4o-mini" w
  /\ exists rest,
       (_demo sv w).1.1
       = "user: Conduct a literature review on **neural networks for biochemistry** and return exactly 5 papers."
           :: rest
       /\ (length rest <= 2)%nat.
Proof.
  assert (Hsame : _demo sv w
                  = run_litrev sv "neural networks for biochemistry" 5
                      "gpt-4o-mini" w).
  { unfold _demo, async_for. change build_team_model_default with "gpt-4o-mini".
    destruct (run_litrev sv _ 5 _ w) as [[lines r] w'].
    do 2 f_equal. induction lines as [| line lines IH]; [reflexivity |].
    cbn. now rewrite IH. }
  split; [exact Hsame |]. rewrite Hsame.
  destruct (run_summary sv "neural networks for biochemistry" 5 "gpt-4o-mini" w)
    as (said & turns & infs & new & Hlines & _ & _ & _ & _ & _ & _ & Hcases).
  rewrite Hlines. exists (map labeled said). split; [reflexivity |].
  rewrite length_map.
  destruct Hcases as [(-> & _) | [(? & -> & _) | (? & ? & -> & _)]]; cbn; lia.
Qed.

(** ** Every run of the script *)

Ltac enter_script :=
  unfold frontend, st_slider, put, try_except_RuntimeError; step_monad; cbn.

Section EveryScriptRun.

Context (sv : Services).

(** Without a press, or without a topic, the script only draws. *)
Lemma frontend_guard_fails
    (topic : string) (position : Z) (pressed : bool) (s : Session) :
  pressed && Py.truthy topic = false ->
  frontend sv topic position pressed s
  = (inr tt,
     {| world := world s;
        loops := loops s;
        page := (page s ++ widgets)%list;
        litrev_calls := litrev_calls s |}).
Proof.
  intros Hguard. enter_script. rewrite Hguard.
  rewrite <- !app_assoc. reflexivity.
Qed.

Lemma list_grows {A} (l : list A) (x : A) (rest : list A) :
  (l ++ x :: rest)%list <> l.
Proof.
  intros Heq. apply (f_equal (@length A)) in Heq.
  rewrite length_app in Heq. cbn in Heq. lia.
Qed.

Lemma truthy_nonempty (topic : string) : Py.truthy topic = true <-> topic <> "".
Proof. destruct topic; cbn; split; congruence. Qed.

(** X11.  In a thread without a running loop, the script starts the
    pipeline exactly when the button was pressed and the topic is not
    the empty string; a topic of blanks counts as a topic. *)
Theorem pipeline_starts_exactly_when_asked
    (topic : string) (position : Z) (pressed : bool) (s : Session) :
  Asyncio.running_loop (loops s) = None ->
  (pressed = true /\ topic <> "")
  <-> litrev_calls (frontend sv topic position pressed s).2 <> litrev_calls s.
Proof.
  intros Hidle. split.
  - intros [-> Htopic%truthy_nonempty].
    destruct (topic_and_button_start_the_pipeline sv topic position s
                Htopic Hidle) as [rest ->].
    apply list_grows.
  - intros Hstarted.
    destruct (pressed && Py.truthy topic) eqn:Hguard.
    + apply andb_true_iff in Hguard as [-> Htopic].
      now rewrite <- truthy_nonempty.
    + rewrite (frontend_guard_fails topic position pressed s Hguard) in Hstarted.
      now contradiction Hstarted.
Qed.

(** X12.  With a loop already running in the script's thread, a request
    is never served: [asyncio.run] and then [run_until_complete] are both
    refused, the script ends in [RuntimeError], the pipeline is not
    started and nothing is shown but the widgets and the spinner; the
    loop made by the fallback stays installed and open. *)
Theorem busy_thread_request_fails
    (topic : string) (position : Z) (s : Session) (running : nat) :
  Py.truthy topic = true ->
  Asyncio.running_loop (loops s) = Some running ->
  frontend sv topic position true s
  = (inl (Py.RuntimeError
            "Cannot run the event loop while another loop is running"),
     {| world := world s;
        loops := {| Asyncio.running_loop := Some running;
                    Asyncio.current_loop :=
                      Some (length (Asyncio.closed (loops s)));
                    Asyncio.closed :=
                      (Asyncio.closed (loops s) ++ [false])%list |};
        page := (page s ++ widgets ++ [Spinner "Working..."])%list;
        litrev_calls := litrev_calls s |}).
Proof.
  intros Htopic Hbusy. enter_script. rewrite Htopic. cbn.
  rewrite (asyncio_run_busy _ _ running) by exact Hbusy. cbn.
  rewrite (fallback_busy _ _ running) by exact Hbusy. cbn.
  rewrite <- !app_assoc. reflexivity.
Qed.

(** X14.  A [RuntimeError] of the pipeline makes the script run the whole
    request a second time, from the world the first attempt left: two
    [run_litrev] generators are started, the frames of the first attempt
    stay on the page above those of the second, and the script ends as
    the second attempt ends, with the success message when it raised
    nothing. *)
Theorem runtime_error_restarts_the_request
    (topic : string) (position : Z) (s : Session)
    (frames1 frames2 : list string) (msg : string) (w1 w2 : World)
    (r2 : Py.exn + unit) :
  Py.truthy topic = true ->
  Asyncio.running_loop (loops s) = None ->
  run_litrev sv topic (slider_value position) build_team_model_default (world s)
  = (frames1, inl (Py.RuntimeError msg), w1) ->
  run_litrev sv topic (slider_value position) build_team_model_default w1
  = (frames2, r2, w2) ->
  let out := frontend sv topic position true s in
  out.1 = r2
  /\ world out.2 = w2
  /\ litrev_calls out.2
     = (litrev_calls s ++ [(topic, slider_value position);
                           (topic, slider_value position)])%list
  /\ page out.2
     = (page s ++ widgets
          ++ Spinner "Working..." :: Container :: map render frames1
          ++ Container :: map render frames2
          ++ match r2 with
             | inl _ => []
             | inr _ => [Success "Review completed!"]
             end)%list.
Proof.
  intros Htopic Hidle Hrun1 Hrun2 out. subst out. unfold slider_value in *.
  enter_script. rewrite Htopic. cbn.
  rewrite asyncio_run_idle by exact Hidle. cbn. rewrite Hrun1. cbn.
  rewrite fallback_idle by reflexivity. cbn. rewrite Hrun2.
  destruct r2 as [e2 | []]; cbn; rewrite <- !app_assoc; cbn;
    rewrite <- ?app_assoc, ?app_nil_r; repeat split.
Qed.

End EveryScriptRun.

Lemma pipeline_starts_exactly_when_asked_witness :
  litrev_calls (frontend Sample.silent " " 5 true (Sample.session Sample.idle)).2
  <> litrev_calls (Sample.session Sample.idle).
Proof.
  apply (pipeline_starts_exactly_when_asked Sample.silent " " 5 true
           (Sample.session Sample.idle)).
  - reflexivity.
  - split; [reflexivity | discriminate].
Defined.

Lemma busy_thread_request_fails_witness :
  (frontend Sample.silent "graph neural networks" 5 true
     (Sample.session Sample.busy)).1
  = inl (Py.RuntimeError
           "Cannot run the event loop while another loop is running").
Proof.
  rewrite (busy_thread_request_fails Sample.silent "graph neural networks" 5
             (Sample.session Sample.busy) 0); reflexivity.
Defined.

Lemma runtime_error_restarts_the_request_witness :
  let out :=
    frontend Sample.flaky "graph neural networks" 5 true
      (Sample.session Sample.idle) in
  out.1 = inr tt
  /\ litrev_calls out.2
     = [("graph neural networks", 5); ("graph neural networks", 5)].
Proof.
  pose proof (runtime_error_restarts_the_request Sample.flaky
                "graph neural networks" 5 (Sample.session Sample.idle)
                ["user: " +:+ task_prompt "graph neural networks" 5]
                ["user: " +:+ task_prompt "graph neural networks" 5;
                 "search_agent: papers"; "summarizer_agent: review"]
                "Event loop is closed"
                {| environ := ∅; clients_made := 0; searches := [];
                   inferences := ["search_agent"];
                   turn_log := ["search_agent"] |}
                {| environ := ∅; clients_made := 0; searches := [];
                   inferences := ["search_agent"; "search_agent";
                                  "summarizer_agent"];
                   turn_log := ["search_agent"; "search_agent";
                                "summarizer_agent"] |}
                (inr tt) eq_refl eq_refl eq_refl eq_refl)
    as (Hresult & _ & Hcalls & _).
  split; [exact Hresult | exact Hcalls].
Defined.

(** ** What every run of the script shows and starts *)

Lemma success_not_rendered (body : string) (frames : list string) :
  ~ In (Success body) (map render frames).
Proof.
  intros (frame & Hrender & _)%in_map_iff.
  unfold render in Hrender.
  destruct (Py.split_colon frame) as [role rest]. discriminate.
Qed.

Section ScriptOutcomes.

Context (sv : Services).

Ltac settle_success :=
  repeat (progress (cbn [In]; rewrite ?in_app_iff));
  split;
  [ intros Hin;
    repeat match goal with
      | H : _ \/ _ |- _ => destruct H
      | H : In (Success _) (map render _) |- _ =>
          exfalso; exact (success_not_rendered _ _ H)
      | H : False |- _ => destruct H
      end;
    try discriminate; auto
  | intros (Hok & _ & _); try discriminate Hok; auto 10 ].

(** What a run of the script has added to the page and which requests it
    has started, in all the ways it can go. *)
Lemma frontend_outcomes
    (topic : string) (position : Z) (pressed : bool) (s : Session) :
  let out := frontend sv topic position pressed s in
  let request := (topic, slider_value position) in
  exists shown new,
    page out.2 = (page s ++ widgets ++ shown)%list
    /\ litrev_calls out.2 = (litrev_calls s ++ new)%list
    /\ (In (Success "Review completed!") shown
        <-> out.1 = inr tt /\ pressed = true /\ topic <> "")
    /\ (new = [] \/ new = [request] \/ new = [request; request]).
Proof.
  intros out request. subst out request. unfold slider_value.
  destruct (pressed && Py.truthy topic) eqn:Hguard.
  - apply andb_true_iff in Hguard as [-> Htopic].
    pose proof (proj1 (truthy_nonempty topic) Htopic) as Hnonempty.
    destruct (Asyncio.running_loop (loops s)) as [running |] eqn:Hloop.
    + enter_script. rewrite Htopic. cbn.
      rewrite (asyncio_run_busy _ _ running) by exact Hloop. cbn.
      rewrite (fallback_busy _ _ running) by exact Hloop. cbn.
      exists [Spinner "Working..."], [].
      rewrite <- !app_assoc, app_nil_r. cbn.
      split; [reflexivity |]. split; [reflexivity |].
      split; [settle_success | auto].
    + enter_script. rewrite Htopic. cbn.
      rewrite asyncio_run_idle by exact Hloop. cbn.
      destruct (run_litrev sv topic _ _ (world s)) as [[frames1 [e | []]] w1];
        cbn; [destruct (Py.is_RuntimeError e) |].
      * rewrite fallback_idle by reflexivity. cbn.
        destruct (run_litrev sv topic _ _ w1) as [[frames2 [e2 | []]] w2]; cbn.
        -- exists (Spinner "Working..." :: Container :: map render frames1
                     ++ Container :: map render frames2)%list, [(topic, Z.max 1 (Z.min 10 position));
                  (topic, Z.max 1 (Z.min 10 position))].
           rewrite <- ?app_assoc. cbn. rewrite <- ?app_assoc. cbn.
           split; [reflexivity |]. split; [reflexivity |].
           split; [settle_success | auto].
        -- exists (Spinner "Working..." :: Container :: map render frames1
                     ++ Container :: map render frames2
                     ++ [Success "Review completed!"])%list, [(topic, Z.max 1 (Z.min 10 position));
                  (topic, Z.max 1 (Z.min 10 position))].
           rewrite <- ?app_assoc. cbn. rewrite <- ?app_assoc. cbn.
           split; [reflexivity |]. split; [reflexivity |].
           split; [settle_success | auto].
      * exists (Spinner "Working..." :: Container :: map render frames1),
          [(topic, Z.max 1 (Z.min 10 position))].
        rewrite <- ?app_assoc. cbn. rewrite <- ?app_assoc. cbn.
        split; [reflexivity |]. split; [reflexivity |].
        split; [settle_success | auto].
      * exists (Spinner "Working..." :: Container :: map render frames1
                  ++ [Success "Review completed!"])%list,
          [(topic, Z.max 1 (Z.min 10 position))].
        rewrite <- ?app_assoc. cbn. rewrite <- ?app_assoc. cbn.
        split; [reflexivity |]. split; [reflexivity |].
        split; [settle_success | auto].
  - rewrite (frontend_guard_fails sv topic position pressed s Hguard). cbn.
    exists [], []. rewrite !app_nil_r.
    split; [reflexivity |]. split; [reflexivity |].
    split; [| auto].
    split; [intros [] |].
    intros (_ & -> & Htopic%truthy_nonempty). cbn in Hguard. congruence.
Qed.

(** X15.  The script shows "Review completed!" exactly when a request was
    made (button pressed, topic not empty) and the script raised nothing;
    a run that ends in an exception never shows it. *)
Theorem success_only_after_completion
    (topic : string) (position : Z) (pressed : bool) (s : Session) :
  let out := frontend sv topic position pressed s in
  exists shown,
    page out.2 = (page s ++ widgets ++ shown)%list
    /\ (In (Success "Review completed!") shown
        <-> out.1 = inr tt /\ pressed = true /\ topic <> "").
Proof.
  intros out.
  destruct (frontend_outcomes topic position pressed s)
    as (shown & new & Hpage & _ & Hsuccess & _).
  exists shown. split; assumption.
Qed.

(** X16.  Whatever the user typed and wherever the slider stands, a run of
    the script starts at most two [run_litrev] generators, each with the
    topic as typed and with a number of papers between 1 and 10. *)
Theorem requests_carry_topic_and_bounded_number
    (topic : string) (position : Z) (pressed : bool) (s : Session) :
  exists new,
    litrev_calls (frontend sv topic position pressed s).2
    = (litrev_calls s ++ new)%list
    /\ (length new <= 2)%nat
    /\ Forall (fun request => fst request = topic /\ 1 <= snd request <= 10) new.
Proof.
  destruct (frontend_outcomes topic position pressed s)
    as (shown & new & _ & Hcalls & _ & Hnew).
  exists new. split; [exact Hcalls |].
  assert (Hrange : 1 <= slider_value position <= 10)
    by (unfold slider_value; lia).
  destruct Hnew as [-> | [-> | ->]]; cbn; split; try lia;
    repeat constructor; cbn; lia.
Qed.

End ScriptOutcomes.
